(** * tabor_settings: the property record codec and the save patcher

    A shallow embedding of [tabor_settings_fix.py]: the class
    [SettingBytes] (the codec that lays a named property out as bytes) and
    the function [locate_and_modify_player_settings] (the patcher that
    splices such records into a save buffer after an anchor marker).

    Python values are modelled as follows.
    - [bytes] and [bytearray] are lists of [Byte.byte]; [bytes([n])] is
      partial, it raises [ValueError] unless [0 <= n < 256].
    - [str] is a list of Unicode code points; [s.encode('utf-8')] is
      partial, it raises [UnicodeEncodeError] on a lone surrogate.
    - an exception is an [Err] result; a normal return is [Ok]. *)

From Stdlib Require Import List ZArith NArith QArith Bool Lia Ascii String.
From Stdlib Require Import Permutation.
From Stdlib.Strings Require Import Byte.
Import ListNotations.
Local Open Scope Z_scope.

(** ** Exceptions and the result monad *)

Inductive exn : Set :=
| TypeError
| ValueError
| KeyError
| UnicodeEncodeError.

Inductive result (A : Type) : Type :=
| Ok (a : A)
| Err (e : exn).
Arguments Ok {A} a.
Arguments Err {A} e.

Definition bind {A B : Type} (r : result A) (k : A -> result B) : result B :=
  match r with
  | Ok a => k a
  | Err e => Err e
  end.

Notation "x <- r ;; k" := (bind r (fun x => k))
  (at level 61, r at next level, right associativity).

(** ** Bytes *)

Definition pybytes := list byte.

(** [bytes([n])] for a Python integer [n]: one byte, or [ValueError]
    ("bytes must be in range(0, 256)"). *)
Definition bytes_of_int (n : Z) : result byte :=
  if (0 <=? n) && (n <? 256) then
    match Byte.of_N (Z.to_N n) with
    | Some b => Ok b
    | None => Err ValueError
    end
  else Err ValueError.

(** [len(b)] as a Python integer. *)
Definition len (b : pybytes) : Z := Z.of_nat (List.length b).

Definition zeros (n : nat) : pybytes := repeat x00 n.

(** *** [bytes.find]

    [find data sub] is the lowest index at which [sub] occurs in [data], and
    [-1] when it does not occur. *)

Fixpoint startswith (data sub : pybytes) {struct sub} : bool :=
  match sub, data with
  | [], _ => true
  | _ :: _, [] => false
  | s :: sub', d :: data' => Byte.eqb s d && startswith data' sub'
  end.

Fixpoint find_from (data sub : pybytes) (i : Z) : Z :=
  match data with
  | [] => if startswith [] sub then i else -1
  | _ :: data' => if startswith data sub then i else find_from data' sub (i + 1)
  end.

Definition find (data sub : pybytes) : Z := find_from data sub 0.

(** *** Slice assignment [b[i:i] = ins] on a bytearray

    Python clamps the slice bound: a negative [i] counts from the end and is
    clamped at [0], an [i] beyond the end is clamped at [len(b)]. *)

Definition slice_bound (n i : Z) : nat :=
  Z.to_nat (if i <? 0 then Z.max 0 (n + i) else Z.min i n).

Definition slice_insert (b : pybytes) (i : Z) (ins : pybytes) : pybytes :=
  let k := slice_bound (len b) i in
  firstn k b ++ ins ++ skipn k b.

(** ** Strings and their UTF-8 encoding *)

(** A Python [str]: the sequence of its code points, each below [0x110000]. *)
Definition pystr := list N.

Definition byte_of_N (n : N) : byte :=
  match Byte.of_N n with
  | Some b => b
  | None => x00
  end.

(** The UTF-8 encoding of one code point (strict error handler: surrogates
    [U+D800..U+DFFF] are refused).  A number from [0x110000] on is no code
    point and never occurs in a [str]; the last branch only makes the
    function total. *)
Definition encode_cp (c : N) : result pybytes :=
  (if c <? 0x80 then Ok [byte_of_N c]
   else if c <? 0x800 then
     Ok [byte_of_N (N.lor 0xC0 (N.shiftr c 6));
         byte_of_N (N.lor 0x80 (N.land c 0x3F))]
   else if c <? 0x10000 then
     if (0xD800 <=? c) && (c <? 0xE000) then Err UnicodeEncodeError
     else
       Ok [byte_of_N (N.lor 0xE0 (N.shiftr c 12));
           byte_of_N (N.lor 0x80 (N.land (N.shiftr c 6) 0x3F));
           byte_of_N (N.lor 0x80 (N.land c 0x3F))]
   else if c <? 0x110000 then
     Ok [byte_of_N (N.lor 0xF0 (N.shiftr c 18));
         byte_of_N (N.lor 0x80 (N.land (N.shiftr c 12) 0x3F));
         byte_of_N (N.lor 0x80 (N.land (N.shiftr c 6) 0x3F));
         byte_of_N (N.lor 0x80 (N.land c 0x3F))]
   else Err UnicodeEncodeError)%N.

(** [s.encode('utf-8')] *)
Fixpoint encode (s : pystr) : result pybytes :=
  match s with
  | [] => Ok []
  | c :: s' =>
      b <- encode_cp c ;;
      bs <- encode s' ;;
      Ok (b ++ bs)
  end.

(** A string literal of the source, as a [pystr] (ASCII literals only). *)
Definition lit (s : string) : pystr :=
  List.map N_of_ascii (list_ascii_of_string s).

(** ** Requested values *)

(** The shapes a requested value can take: what [json.load] produces
    ([bool], [int], [float], [str], [None], lists and objects), and [bytes],
    which a direct caller may pass.  A finite [float] is kept as the rational
    it denotes, which is all that [==] against a [bool] looks at; [PyOther]
    stands for [None], a list, an object or a non-finite float, none of which
    is ever equal to a [bool]. *)
Inductive pyvalue : Type :=
| PyBool (b : bool)
| PyInt (n : Z)
| PyStr (s : pystr)
| PyBytes (b : pybytes)
| PyFloat (q : Q)
| PyOther.

Definition int_of_bool (b : bool) : Z := if b then 1 else 0.

(** [v != d] for a requested value [v] and a [bool] default [d]:
    numbers compare by value ([True == 1 == 1.0]), everything else differs. *)
Definition py_ne (v : pyvalue) (d : bool) : bool :=
  match v with
  | PyBool b => negb (Bool.eqb b d)
  | PyInt n => negb (n =? int_of_bool d)
  | PyFloat q => negb (Qeq_bool q (inject_Z (int_of_bool d)))
  | PyStr _ | PyBytes _ | PyOther => true
  end.

(** ** [DEFAULT_SETTINGS] *)

Definition DEFAULT_SETTINGS : list (pystr * bool) :=
  [ (lit "bFullBodyIK", true);
    (lit "bHoldCrouchToOpenMenu", true);
    (lit "bUsingPhysicalGunstock", false) ].

Definition pystr_eqb (a b : pystr) : bool :=
  if list_eq_dec N.eq_dec a b then true else false.

(** [d[key]] on a dict: the value, or [KeyError]. *)
Fixpoint getitem {V : Type} (d : list (pystr * V)) (key : pystr) : result V :=
  match d with
  | [] => Err KeyError
  | (k, v) :: d' => if pystr_eqb k key then Ok v else getitem d' key
  end.

(** ** The codec: class [SettingBytes] *)

Module SettingBytes.

Record t : Type := mk {
  key : pybytes;
  data_type : pybytes;
  _padding : pybytes;
  _value : pyvalue;
  header : pybytes;
  type_metadata : pybytes;
  value : pybytes;
  bytes : pybytes
}.

(** [_compute_value]: the byte representation of the value, by its type. *)
Definition _compute_value (v : pyvalue) : result pybytes :=
  match v with
  | PyBool b => b' <- bytes_of_int (int_of_bool b) ;; Ok [b']
  | PyInt n => b' <- bytes_of_int n ;; Ok [b']
  | PyStr s => encode s
  | PyBytes b => Ok b
  | PyFloat _ | PyOther => Err TypeError
  end.

(** [__init__]: the fields in the order the constructor computes them. *)
Definition __init__ (k dt : pystr) (v : pyvalue) : result t :=
  kb <- encode k ;;
  let key := kb ++ [x00] in
  tb <- encode dt ;;
  let data_type := tb ++ [x00] in
  let _padding := zeros 8 in
  h <- bytes_of_int (len key) ;;
  let header := [h; x00; x00; x00] in
  m <- bytes_of_int (len data_type) ;;
  let type_metadata := [m; x00; x00; x00] in
  value <- _compute_value v ;;
  Ok (mk key data_type _padding v header type_metadata value
         (header ++ key ++ type_metadata ++ data_type ++ _padding
                 ++ value ++ [x00])).

End SettingBytes.

(** ** The patcher *)

(** One entry of the request, [{"type": ..., "value": ...}]: both items are
    there and the type tag is a [str], as the request document has them. *)
Record value_data : Type := {
  vd_type : pystr;   (* value_data['type'] *)
  vd_value : pyvalue (* value_data['value'] *)
}.

(** [settings.items()]: the requested settings in the dict's iteration
    order. *)
Definition settings := list (pystr * value_data).

Definition data_anchor : pybytes :=
  match encode (lit "BP_Ghosts_SettingsSave_C") with
  | Ok b => b ++ [x00]
  | Err _ => []
  end.

Definition insertion_index (data : pybytes) : Z :=
  find data data_anchor + len data_anchor.

(** The state of the loop: [modified_data] and [file_modified]. *)
Definition loop_state : Type := pybytes * bool.

(** One iteration of the [for] loop over [settings.items()]. *)
Definition loop_body (data : pybytes) (insertion_index : Z)
    (st : loop_state) (item : pystr * value_data) : result loop_state :=
  let '(modified_data, file_modified) := st in
  let '(key, vd) := item in
  let data_type := vd_type vd in
  let value := vd_value vd in
  kb <- encode key ;;
  let key_bytes := kb ++ [x00] in
  let key_index := find data key_bytes in
  setting_bytes <- SettingBytes.__init__ key data_type value ;;
  if key_index =? -1 then
    d <- getitem DEFAULT_SETTINGS key ;;
    if py_ne value d then
      Ok (slice_insert modified_data insertion_index
                       (SettingBytes.bytes setting_bytes), true)
    else Ok (modified_data, file_modified)
  else Ok (modified_data, file_modified).

Fixpoint loop (data : pybytes) (insertion_index : Z)
    (items : settings) (st : loop_state) : result loop_state :=
  match items with
  | [] => Ok st
  | item :: items' =>
      st' <- loop_body data insertion_index st item ;;
      loop data insertion_index items' st'
  end.

(** The result is [Some] patched buffer, or [None], Python's [None]. *)
Definition locate_and_modify_player_settings
    (data : pybytes) (s : settings) : result (option pybytes) :=
  let file_modified := false in
  let modified_data := data in
  let insertion_index := insertion_index data in
  st <- loop data insertion_index s (modified_data, file_modified) ;;
  let '(modified_data, file_modified) := st in
  Ok (if file_modified then Some modified_data else None).

(** ** Specification vocabulary *)

(** [sub] occurs somewhere in [data]. *)
Definition occurs (sub data : pybytes) : Prop :=
  exists pre post, data = pre ++ sub ++ post.

(** The on-disk layout of a record, from the encoded key [kb], the encoded
    type tag [tb] and the value bytes [vb]:
    header(4) || key || NUL || header(4) || type || NUL || padding(8) ||
    value || NUL, each header holding the length of the name and its
    terminator in its low byte. *)
Definition length_header (name : pybytes) : pybytes :=
  [byte_of_N (N.of_nat (List.length name + 1)); x00; x00; x00].

Definition record_layout (kb tb vb : pybytes) : pybytes :=
  length_header kb ++ kb ++ [x00] ++
  length_header tb ++ tb ++ [x00] ++
  zeros 8 ++ vb ++ [x00].

(** A value shape the codec does not support. *)
Definition unsupported (v : pyvalue) : bool :=
  match v with
  | PyFloat _ | PyOther => true
  | _ => false
  end.

(** What one requested setting asks of the patcher: [Some] record to insert
    when its key is absent from the buffer and its value differs from the
    default, [None] when nothing is to be inserted, an error when handling
    it raises. *)
Definition requested_record (data : pybytes) (item : pystr * value_data)
    : result (option pybytes) :=
  let '(key, vd) := item in
  kb <- encode key ;;
  sb <- SettingBytes.__init__ key (vd_type vd) (vd_value vd) ;;
  if find data (kb ++ [x00]) =? -1 then
    d <- getitem DEFAULT_SETTINGS key ;;
    Ok (if py_ne (vd_value vd) d then Some (SettingBytes.bytes sb) else None)
  else Ok None.

Definition cons_opt {A : Type} (o : option A) (l : list A) : list A :=
  match o with
  | Some a => a :: l
  | None => l
  end.

(** The records a request asks to insert, in request-iteration order. *)
Fixpoint inserted_records (data : pybytes) (items : settings)
    : result (list pybytes) :=
  match items with
  | [] => Ok []
  | item :: items' =>
      r <- requested_record data item ;;
      rs <- inserted_records data items' ;;
      Ok (cons_opt r rs)
  end.

(** Whether the request asks for any insertion at all. *)
Definition any_record (rs : list pybytes) : bool :=
  match rs with
  | [] => false
  | _ :: _ => true
  end.

(** [ins] put into [b] at offset [k], or at the end of [b] when [b] is
    shorter than [k]. *)
Definition splice (k : nat) (b ins : pybytes) : pybytes :=
  firstn k b ++ ins ++ skipn k b.

(** [rec] sits in [out] at offset [k]. *)
Definition at_offset (k : nat) (rec out : pybytes) : Prop :=
  firstn (List.length rec) (skipn k out) = rec.

Definition total_length (rs : list pybytes) : nat := List.length (List.concat rs).

(** ** Concrete requests and buffers *)

Definition request (key ty : string) (v : pyvalue) : pystr * value_data :=
  (lit key, {| vd_type := lit ty; vd_value := v |}).

Definition gunstock_on : pystr * value_data :=
  request "bUsingPhysicalGunstock" "BoolProperty" (PyBool true).

Definition gunstock_off : pystr * value_data :=
  request "bUsingPhysicalGunstock" "BoolProperty" (PyBool false).

Definition body_ik_off : pystr * value_data :=
  request "bFullBodyIK" "BoolProperty" (PyBool false).

Definition ascii_bytes (s : string) : pybytes :=
  List.map byte_of_ascii (list_ascii_of_string s).

(** The record of the module docstring. *)
Definition gunstock_record : pybytes :=
  [x17; x00; x00; x00] ++ ascii_bytes "bUsingPhysicalGunstock" ++ [x00] ++
  [x0d; x00; x00; x00] ++ ascii_bytes "BoolProperty" ++ [x00] ++
  zeros 8 ++ [x01] ++ [x00].

Definition body_ik_record : pybytes :=
  [x0c; x00; x00; x00] ++ ascii_bytes "bFullBodyIK" ++ [x00] ++
  [x0d; x00; x00; x00] ++ ascii_bytes "BoolProperty" ++ [x00] ++
  zeros 8 ++ [x00] ++ [x00].

(** The object [SettingBytes('bUsingPhysicalGunstock', 'BoolProperty', True)]. *)
Definition gunstock_sb : SettingBytes.t :=
  SettingBytes.mk
    (ascii_bytes "bUsingPhysicalGunstock" ++ [x00])
    (ascii_bytes "BoolProperty" ++ [x00])
    (zeros 8) (PyBool true)
    [x17; x00; x00; x00] [x0d; x00; x00; x00] [x01]
    gunstock_record.

(** [SettingBytes('bFullBodyIK', 'BoolProperty', False)]. *)
Definition body_ik_sb : SettingBytes.t :=
  SettingBytes.mk
    (ascii_bytes "bFullBodyIK" ++ [x00])
    (ascii_bytes "BoolProperty" ++ [x00])
    (zeros 8) (PyBool false)
    [x0c; x00; x00; x00] [x0d; x00; x00; x00] [x00]
    body_ik_record.

(** A buffer with the anchor at offset 100. *)
Definition sample_save : pybytes :=
  repeat xff 100 ++ data_anchor ++ repeat xee 7.

(** The same buffer, already holding a record for [bFullBodyIK]. *)
Definition sample_save_with_ik : pybytes :=
  repeat xff 100 ++ data_anchor ++ body_ik_record ++ repeat xee 7.

(** A setting name that [DEFAULT_SETTINGS] does not list. *)
Definition snap_turn_on : pystr * value_data :=
  request "bSnapTurn" "BoolProperty" (PyBool true).

Definition snap_turn_record : pybytes :=
  [x0a; x00; x00; x00] ++ ascii_bytes "bSnapTurn" ++ [x00] ++
  [x0d; x00; x00; x00] ++ ascii_bytes "BoolProperty" ++ [x00] ++
  zeros 8 ++ [x01] ++ [x00].

Definition snap_turn_sb : SettingBytes.t :=
  SettingBytes.mk
    (ascii_bytes "bSnapTurn" ++ [x00])
    (ascii_bytes "BoolProperty" ++ [x00])
    (zeros 8) (PyBool true)
    [x0a; x00; x00; x00] [x0d; x00; x00; x00] [x01]
    snap_turn_record.

Definition sample_save_with_snap : pybytes :=
  repeat xff 100 ++ data_anchor ++ snap_turn_record ++ repeat xee 7.

(** A name of 255 characters: 256 bytes with its terminator. *)
Definition long_name : pystr := repeat 97%N 255.

(** ** File discovery and the entry point *)

(** [max(first :: rest, key=key)]: the first item whose key no later item
    exceeds; an item replaces the running maximum only when its key is
    strictly greater.  Modification times are floats, compared here as the
    rationals they denote. *)
Fixpoint py_max {A : Type} (key : A -> Q) (best : A) (rest : list A) : A :=
  match rest with
  | [] => best
  | x :: rest' =>
      py_max key (if Qle_bool (key x) (key best) then best else x) rest'
  end.

(** What [main] does to the outside world, in order. *)
Inductive effect : Type :=
| Copy (src dst : pystr)              (* shutil.copy(src, dst) *)
| WriteFile (path : pystr) (data : pybytes) (* write_file(path, data) *)
| Print (msg : pystr).

(** The truth value of [modified_data] in [if modified_data:]: [None] and
    the empty [bytes] are false. *)
Definition truthy (m : option pybytes) : bool :=
  match m with
  | Some (_ :: _) => true
  | _ => false
  end.

(** [x + y] where [x] is the result of [os.environ.get]: [None + str]
    raises [TypeError]. *)
Definition add_str (x : option pystr) (y : pystr) : result pystr :=
  match x with
  | Some s => Ok (s ++ y)
  | None => Err TypeError
  end.

(** [d / x] on a [Path] [d]: the joined path for a string [x], [TypeError]
    for [None]. *)
Definition truediv (join : pystr -> pystr -> pystr) (d : pystr)
    (x : option pystr) : result pystr :=
  match x with
  | Some s => Ok (join d s)
  | None => Err TypeError
  end.

Section Environment.

(** The surroundings of the script, which it reads through library calls:
    the environment variable, the directory listing with its modification
    times, the content of the files (every path that is read exists and can
    be read), the parsed [PlayerSettings.json] and the clock.  Paths are
    kept as strings; [Path], the joining of two paths by the operator [/]
    and [os.path.join] are those of the library. *)
Variable environ_get : pystr -> option pystr.
Variable Path : pystr -> pystr.
Variable path_join : pystr -> pystr -> pystr.
Variable os_path_join : pystr -> pystr -> pystr.
Variable glob_glob : pystr -> list pystr.
Variable getmtime : pystr -> Q.
Variable read_file : pystr -> pybytes.
Variable json_load : settings.
Variable strftime : pystr.

(** [find_newest_settings_file]: the newest [PlayerSettings*.sav] in
    [path], [None] when there is none. *)
Definition find_newest_settings_file (path : pystr) : option pystr :=
  let search_pattern := os_path_join path (lit "PlayerSettings*.sav") in
  let files := glob_glob search_pattern in
  match files with
  | [] => None
  | f :: files' => Some (py_max getmtime f files')
  end.

(** [main]: the effects it performs, or the exception that ends it. *)
Definition main : result (list effect) :=
  la <- add_str (environ_get (lit "LOCALAPPDATA"))
                (lit "\GhostsOfTabor\Saved\SaveGames\") ;;
  let file_dir := Path la in
  let file_name := find_newest_settings_file file_dir in
  file_path <- truediv path_join file_dir file_name ;;
  output_path <- truediv path_join file_dir
                   (Some (lit "Modified_PlayerSettings17122024.sav")) ;;
  let data := read_file file_path in
  let settings_to_modify := json_load in
  modified_data <- locate_and_modify_player_settings data settings_to_modify ;;
  if truthy modified_data then
    let timestamp := strftime in
    let backup_file :=
      match file_name with
      | Some f => f ++ lit "_" ++ timestamp ++ lit ".bak"
      | None => lit "None_" ++ timestamp ++ lit ".bak"
      end in
    backup_path <- truediv path_join file_dir (Some backup_file) ;;
    Ok [Copy file_path backup_path;
        WriteFile file_path
                  (match modified_data with Some b => b | None => [] end);
        Print (lit "Modified file saved to " ++ file_path)]
  else Ok [].

End Environment.

(** * Properties *)

(** ** The result monad *)

Lemma bind_Ok {A B : Type} (r : result A) (k : A -> result B) (b : B) :
  bind r k = Ok b -> exists a, r = Ok a /\ k a = Ok b.
Proof.
  destruct r as [a|e]; simpl; intros H; [eauto | discriminate].
Qed.

(** ** [bytes.find] *)

Lemma startswith_iff (data sub : pybytes) :
  startswith data sub = true <-> exists post, data = sub ++ post.
Proof.
  revert data; induction sub as [|s sub IH]; intros data; simpl.
  - split; [intros _; now exists data | reflexivity].
  - destruct data as [|d data].
    + split; [discriminate | intros [post H]; discriminate].
    + rewrite andb_true_iff, IH. split.
      * intros [Hb [post ->]]. apply byte_dec_bl in Hb. subst. now exists post.
      * intros [post H]. injection H as -> ->. split.
        -- now apply byte_dec_lb.
        -- now exists post.
Qed.

Lemma find_from_range (data sub : pybytes) (i : Z) :
  find_from data sub i = -1 \/
  i <= find_from data sub i <= i + len data.
Proof.
  unfold len. revert i; induction data as [|d data IH]; intros i.
  - cbn [find_from]. destruct (startswith [] sub); [right; simpl; lia | now left].
  - cbn [find_from]. destruct (startswith (d :: data) sub).
    + right. simpl List.length. lia.
    + destruct (IH (i + 1)) as [H|H]; [now left | right].
      simpl List.length. lia.
Qed.

Lemma find_from_hit (data sub : pybytes) (i : Z) :
  0 <= i -> find_from data sub i <> -1 ->
  exists pre post,
    data = pre ++ sub ++ post /\
    find_from data sub i = i + len pre /\
    (forall pre' post', data = pre' ++ sub ++ post' -> len pre <= len pre').
Proof.
  unfold len. revert i; induction data as [|d data IH]; intros i Hi Hf.
  - cbn [find_from] in *. destruct (startswith [] sub) eqn:E; [|congruence].
    apply startswith_iff in E as [post E]. exists [], post. simpl.
    repeat split; [assumption | lia | intros; lia].
  - cbn [find_from] in *. destruct (startswith (d :: data) sub) eqn:E.
    + apply startswith_iff in E as [post E]. exists [], post. simpl.
      repeat split; [assumption | lia | intros; lia].
    + destruct (IH (i + 1)) as (pre & post & Hd & Hx & Hmin); [lia|assumption|].
      exists (d :: pre), post. repeat split.
      * simpl. now rewrite Hd.
      * rewrite Hx. simpl List.length. lia.
      * intros pre' post' H'. destruct pre' as [|p pre'].
        -- simpl in H'. assert (startswith (d :: data) sub = true) as C
             by (apply startswith_iff; now exists post').
           congruence.
        -- simpl in H'. injection H' as _ H'. specialize (Hmin _ _ H').
           simpl List.length. lia.
Qed.

Lemma find_from_miss (data sub : pybytes) (i : Z) :
  find_from data sub i = -1 -> 0 <= i -> ~ occurs sub data.
Proof.
  revert i; induction data as [|d data IH]; intros i Hf Hi (pre & post & H).
  - cbn [find_from] in Hf. destruct (startswith [] sub) eqn:E; [lia|].
    assert (startswith [] sub = true) as C; [|congruence].
    apply startswith_iff. destruct pre; [now exists post | discriminate].
  - cbn [find_from] in Hf. destruct (startswith (d :: data) sub) eqn:E; [lia|].
    destruct pre as [|p pre].
    + assert (startswith (d :: data) sub = true) as C; [|congruence].
      apply startswith_iff. now exists post.
    + simpl in H. injection H as _ H.
      apply (IH (i + 1)); [assumption | lia | now exists pre, post].
Qed.

(** [find] returns [-1] exactly when the needle does not occur. *)
Lemma find_miss_iff (data sub : pybytes) :
  find data sub = -1 <-> ~ occurs sub data.
Proof.
  unfold find. split.
  - intros H. now apply (find_from_miss data sub 0).
  - intros H. destruct (Z.eq_dec (find_from data sub 0) (-1)) as [E|E]; [assumption|].
    destruct (find_from_hit data sub 0) as (pre & post & Hd & _); [lia|assumption|].
    exfalso. apply H. now exists pre, post.
Qed.

(** Otherwise it is the offset of the first occurrence. *)
Lemma find_hit (data sub : pybytes) :
  find data sub <> -1 ->
  exists pre post,
    data = pre ++ sub ++ post /\
    find data sub = len pre /\
    (forall pre' post', data = pre' ++ sub ++ post' -> len pre <= len pre').
Proof.
  intros H. destruct (find_from_hit data sub 0) as (pre & post & Hd & Hx & Hm);
    [lia | assumption |].
  exists pre, post. repeat split; [assumption | unfold find; lia | assumption].
Qed.

Lemma find_occurs (data sub : pybytes) :
  occurs sub data -> 0 <= find data sub.
Proof.
  intros H. destruct (find_from_range data sub 0) as [E|E]; unfold find; [|lia].
  apply find_miss_iff in E. contradiction.
Qed.

(** ** Single bytes *)

Lemma byte_of_N_to_N (n : N) :
  (n < 256)%N -> Byte.to_N (byte_of_N n) = n.
Proof.
  intros H. unfold byte_of_N. destruct (Byte.of_N n) as [b|] eqn:E.
  - now apply Byte.to_of_N.
  - apply Byte.of_N_None_iff in E. lia.
Qed.

Lemma bytes_of_int_ok (n : Z) :
  0 <= n < 256 -> bytes_of_int n = Ok (byte_of_N (Z.to_N n)).
Proof.
  intros H. unfold bytes_of_int, byte_of_N.
  replace ((0 <=? n) && (n <? 256)) with true
    by (symmetry; apply andb_true_iff; split; [apply Z.leb_le | apply Z.ltb_lt]; lia).
  destruct (Byte.of_N (Z.to_N n)) as [b|] eqn:E; [reflexivity|].
  apply Byte.of_N_None_iff in E. lia.
Qed.

Lemma bytes_of_int_err (n : Z) :
  n < 0 \/ 256 <= n -> bytes_of_int n = Err ValueError.
Proof.
  intros H. unfold bytes_of_int.
  destruct ((0 <=? n) && (n <? 256)) eqn:E; [|reflexivity].
  apply andb_true_iff in E as [E1 E2].
  apply Z.leb_le in E1. apply Z.ltb_lt in E2. lia.
Qed.

Lemma bytes_of_int_inv (n : Z) (b : byte) :
  bytes_of_int n = Ok b ->
  0 <= n < 256 /\ b = byte_of_N (Z.to_N n) /\ Z.of_N (Byte.to_N b) = n.
Proof.
  intros H.
  assert (0 <= n < 256) as Hn.
  { destruct (Z_lt_dec n 0) as [L|L];
      [rewrite bytes_of_int_err in H by lia; discriminate|].
    destruct (Z_le_dec 256 n) as [G|G];
      [rewrite bytes_of_int_err in H by lia; discriminate|].
    lia. }
  rewrite bytes_of_int_ok in H by assumption. injection H as <-.
  repeat split; try lia.
  rewrite byte_of_N_to_N by lia. lia.
Qed.

Lemma len_nonneg (a : pybytes) : 0 <= len a.
Proof. unfold len. lia. Qed.

Lemma len_snoc (a : pybytes) (b : byte) : len (a ++ [b]) = len a + 1.
Proof. unfold len. rewrite length_app. simpl. lia. Qed.

(** ** The codec *)

Lemma length_header_byte (name : pybytes) :
  len name + 1 < 256 ->
  length_header name = [byte_of_N (Z.to_N (len (name ++ [x00]))); x00; x00; x00].
Proof.
  intros _. unfold length_header, len. rewrite length_app. simpl List.length.
  do 2 f_equal. lia.
Qed.

(** The constructor succeeds on every name short enough for its header, and
    its [bytes] field then has the layout. *)
Lemma init_ok (k dt : pystr) (v : pyvalue) (kb tb vb : pybytes) :
  encode k = Ok kb -> encode dt = Ok tb ->
  SettingBytes._compute_value v = Ok vb ->
  len kb + 1 < 256 -> len tb + 1 < 256 ->
  exists sb, SettingBytes.__init__ k dt v = Ok sb /\
             SettingBytes.bytes sb = record_layout kb tb vb.
Proof.
  intros Hk Ht Hv Lk Lt. unfold SettingBytes.__init__.
  rewrite Hk, Ht. cbn [bind].
  pose proof (len_nonneg kb). pose proof (len_nonneg tb).
  rewrite !bytes_of_int_ok by (rewrite len_snoc; lia).
  cbn [bind]. rewrite Hv. cbn [bind].
  eexists. split; [reflexivity|]. cbn [SettingBytes.bytes].
  unfold record_layout. rewrite !length_header_byte by assumption.
  now rewrite <- !app_assoc.
Qed.

(** Conversely a record is only ever built this way. *)
Lemma init_inv (k dt : pystr) (v : pyvalue) (sb : SettingBytes.t) :
  SettingBytes.__init__ k dt v = Ok sb ->
  exists kb tb vb,
    encode k = Ok kb /\ encode dt = Ok tb /\
    SettingBytes._compute_value v = Ok vb /\
    len kb + 1 < 256 /\ len tb + 1 < 256 /\
    SettingBytes.bytes sb = record_layout kb tb vb.
Proof.
  unfold SettingBytes.__init__. intros H.
  apply bind_Ok in H as (kb & Hk & H).
  apply bind_Ok in H as (tb & Ht & H).
  apply bind_Ok in H as (h & Hh & H).
  apply bind_Ok in H as (m & Hm & H).
  apply bind_Ok in H as (vb & Hv & H).
  destruct (bytes_of_int_inv _ _ Hh) as (Lk & _).
  destruct (bytes_of_int_inv _ _ Hm) as (Lt & _).
  rewrite len_snoc in Lk, Lt.
  destruct (init_ok k dt v kb tb vb) as (sb' & E & L);
    try assumption; try lia.
  exists kb, tb, vb. repeat split; try assumption; try lia.
  unfold SettingBytes.__init__ in E. rewrite Hk, Ht in E. cbn [bind] in E.
  rewrite Hh, Hm in E. cbn [bind] in E. rewrite Hv in E. cbn [bind] in E.
  congruence.
Qed.

Lemma record_layout_length (kb tb vb : pybytes) :
  List.length (record_layout kb tb vb) =
  (List.length kb + List.length tb + List.length vb + 19)%nat.
Proof.
  unfold record_layout, length_header, zeros.
  repeat (rewrite length_app || rewrite repeat_length || cbn [List.length]).
  lia.
Qed.

Lemma init_bytes_nonempty (k dt : pystr) (v : pyvalue) (sb : SettingBytes.t) :
  SettingBytes.__init__ k dt v = Ok sb ->
  (0 < List.length (SettingBytes.bytes sb))%nat.
Proof.
  intros H. apply init_inv in H as (kb & tb & vb & _ & _ & _ & _ & _ & ->).
  rewrite record_layout_length. lia.
Qed.

Lemma init_key (k dt : pystr) (v : pyvalue) (sb : SettingBytes.t) :
  SettingBytes.__init__ k dt v = Ok sb ->
  exists kb, encode k = Ok kb /\ SettingBytes.key sb = kb ++ [x00].
Proof.
  unfold SettingBytes.__init__. intros H.
  apply bind_Ok in H as (kb & Hk & H).
  apply bind_Ok in H as (tb & Ht & H).
  apply bind_Ok in H as (h & Hh & H).
  apply bind_Ok in H as (m & Hm & H).
  apply bind_Ok in H as (vb & Hv & H).
  injection H as <-. now exists kb.
Qed.

(** ** Slice insertion *)

Lemma firstn_min_length {A : Type} (k : nat) (l : list A) :
  firstn (Nat.min k (List.length l)) l = firstn k l.
Proof.
  destruct (Nat.le_gt_cases k (List.length l)) as [H|H].
  - now rewrite Nat.min_l.
  - rewrite Nat.min_r by lia. rewrite !firstn_all2; [reflexivity | lia | lia].
Qed.

Lemma skipn_min_length {A : Type} (k : nat) (l : list A) :
  skipn (Nat.min k (List.length l)) l = skipn k l.
Proof.
  destruct (Nat.le_gt_cases k (List.length l)) as [H|H].
  - now rewrite Nat.min_l.
  - rewrite Nat.min_r by lia. rewrite !skipn_all2; [reflexivity | lia | lia].
Qed.

(** At a non-negative index the slice assignment is a splice. *)
Lemma slice_insert_splice (b : pybytes) (i : Z) (ins : pybytes) :
  0 <= i -> slice_insert b i ins = splice (Z.to_nat i) b ins.
Proof.
  intros Hi. unfold slice_insert, splice, slice_bound, len.
  destruct (i <? 0) eqn:E; [apply Z.ltb_lt in E; lia|].
  replace (Z.to_nat (Z.min i (Z.of_nat (List.length b))))
    with (Nat.min (Z.to_nat i) (List.length b)) by lia.
  now rewrite firstn_min_length, skipn_min_length.
Qed.

Lemma splice_length (k : nat) (b ins : pybytes) :
  List.length (splice k b ins) = (List.length b + List.length ins)%nat.
Proof.
  unfold splice. rewrite !length_app.
  rewrite <- (firstn_skipn k b) at 3. rewrite length_app. lia.
Qed.

(** Repeated splices at one offset inside the buffer stack the inserted
    blocks last-in first. *)
Lemma fold_splice (k : nat) (rs : list pybytes) (b : pybytes) :
  (k <= List.length b)%nat ->
  fold_left (splice k) rs b =
  firstn k b ++ List.concat (rev rs) ++ skipn k b.
Proof.
  revert b; induction rs as [|r rs IH]; intros b Hk.
  - simpl. now rewrite firstn_skipn.
  - cbn [fold_left]. rewrite IH by (rewrite splice_length; lia).
    unfold splice.
    assert (List.length (firstn k b) = k) as Hl
      by (rewrite length_firstn; lia).
    rewrite firstn_app, skipn_app, Hl, Nat.sub_diag.
    rewrite (firstn_all2 (n:=k) (firstn k b)) by lia.
    rewrite (skipn_all2 (n:=k) (firstn k b)) by lia.
    cbn [firstn skipn rev]. rewrite !app_nil_r, concat_app. simpl.
    now rewrite app_nil_r, <- !app_assoc.
Qed.

Lemma fold_splice_length (k : nat) (rs : list pybytes) (b : pybytes) :
  List.length (fold_left (splice k) rs b) =
  (List.length b + total_length rs)%nat.
Proof.
  unfold total_length. revert b; induction rs as [|r rs IH]; intros b.
  - simpl. lia.
  - cbn [fold_left]. rewrite IH, splice_length. simpl.
    rewrite length_app. lia.
Qed.

(** ** The loop *)

Lemma loop_body_eq (data : pybytes) (i : Z) (md : pybytes) (m : bool)
    (item : pystr * value_data) :
  loop_body data i (md, m) item =
  (r <- requested_record data item ;;
   Ok (match r with
       | Some rec => (slice_insert md i rec, true)
       | None => (md, m)
       end)).
Proof.
  destruct item as [key vd]. unfold loop_body, requested_record.
  destruct (encode key) as [kb|e]; [cbn [bind] | reflexivity].
  destruct (SettingBytes.__init__ key (vd_type vd) (vd_value vd)) as [sb|e];
    [cbn [bind] | reflexivity].
  destruct (find data (kb ++ [x00]) =? -1); [|reflexivity].
  destruct (getitem DEFAULT_SETTINGS key) as [d|e]; [cbn [bind] | reflexivity].
  now destruct (py_ne (vd_value vd) d).
Qed.

(** The loop, as a function of the records the request asks to insert. *)
Lemma loop_eq (data : pybytes) (i : Z) (items : settings)
    (md : pybytes) (m : bool) :
  loop data i items (md, m) =
  (rs <- inserted_records data items ;;
   Ok (fold_left (fun b r => slice_insert b i r) rs md, m || any_record rs)).
Proof.
  revert md m; induction items as [|item items IH]; intros md m.
  - simpl. now rewrite orb_false_r.
  - cbn [loop inserted_records]. rewrite loop_body_eq.
    destruct (requested_record data item) as [[r|]|e]; cbn [bind].
    + rewrite IH. destruct (inserted_records data items) as [rs|e];
        [cbn [bind] | reflexivity].
      now rewrite orb_true_r.
    + rewrite IH. now destruct (inserted_records data items).
    + reflexivity.
Qed.

Lemma patch_eq (data : pybytes) (s : settings) :
  locate_and_modify_player_settings data s =
  (rs <- inserted_records data s ;;
   Ok (if any_record rs
       then Some (fold_left (fun b r => slice_insert b (insertion_index data) r)
                            rs data)
       else None)).
Proof.
  unfold locate_and_modify_player_settings. rewrite loop_eq.
  now destruct (inserted_records data s).
Qed.

Lemma len_data_anchor : len data_anchor = 25.
Proof. reflexivity. Qed.

Lemma insertion_index_nonneg (data : pybytes) : 0 <= insertion_index data.
Proof.
  unfold insertion_index, find. rewrite len_data_anchor.
  destruct (find_from_range data data_anchor 0); lia.
Qed.

Lemma fold_slice_insert (i : Z) (rs : list pybytes) (b : pybytes) :
  0 <= i ->
  fold_left (fun b r => slice_insert b i r) rs b =
  fold_left (splice (Z.to_nat i)) rs b.
Proof.
  intros Hi. revert b; induction rs as [|r rs IH]; intros b; [reflexivity|].
  cbn [fold_left]. now rewrite IH, slice_insert_splice.
Qed.

Lemma fold_slice_insert_length (i : Z) (rs : list pybytes) (b : pybytes) :
  0 <= i ->
  List.length (fold_left (fun b r => slice_insert b i r) rs b) =
  (List.length b + total_length rs)%nat.
Proof.
  intros Hi. rewrite fold_slice_insert by assumption.
  apply fold_splice_length.
Qed.

(** With the anchor in the buffer, the insertion point is the end of its
    first occurrence. *)
Lemma insertion_index_hit (data : pybytes) :
  find data data_anchor <> -1 ->
  exists pre post,
    data = pre ++ data_anchor ++ post /\
    find data data_anchor = len pre /\
    (forall pre' post', data = pre' ++ data_anchor ++ post' -> len pre <= len pre') /\
    Z.to_nat (insertion_index data) = List.length (pre ++ data_anchor).
Proof.
  intros H. destruct (find_hit _ _ H) as (pre & post & Hd & Hf & Hm).
  exists pre, post. repeat split; try assumption.
  unfold insertion_index. rewrite Hf, length_app. unfold len. lia.
Qed.

(** ** Faults of the codec *)

Lemma init_name_too_long (k dt : pystr) (v : pyvalue) (kb tb : pybytes) :
  encode k = Ok kb -> encode dt = Ok tb ->
  256 <= len kb + 1 \/ 256 <= len tb + 1 ->
  SettingBytes.__init__ k dt v = Err ValueError.
Proof.
  intros Hk Ht L. unfold SettingBytes.__init__. rewrite Hk, Ht. cbn [bind].
  destruct (Z_le_dec 256 (len kb + 1)) as [G|G].
  - now rewrite (bytes_of_int_err (len (kb ++ [x00])))
      by (rewrite len_snoc; lia).
  - pose proof (len_nonneg kb).
    rewrite (bytes_of_int_ok (len (kb ++ [x00]))) by (rewrite len_snoc; lia).
    cbn [bind].
    now rewrite (bytes_of_int_err (len (tb ++ [x00])))
      by (rewrite len_snoc; lia).
Qed.

Lemma init_value_fault (k dt : pystr) (v : pyvalue) (e : exn) :
  SettingBytes._compute_value v = Err e ->
  exists e', SettingBytes.__init__ k dt v = Err e'.
Proof.
  intros Hv. destruct (SettingBytes.__init__ k dt v) as [sb|e'] eqn:E;
    [|now exists e'].
  apply init_inv in E as (kb & tb & vb & _ & _ & Hv' & _). congruence.
Qed.

Lemma init_value_fault_exact (k dt : pystr) (v : pyvalue) (kb tb : pybytes)
    (e : exn) :
  encode k = Ok kb -> encode dt = Ok tb ->
  len kb + 1 < 256 -> len tb + 1 < 256 ->
  SettingBytes._compute_value v = Err e ->
  SettingBytes.__init__ k dt v = Err e.
Proof.
  intros Hk Ht Lk Lt Hv. unfold SettingBytes.__init__. rewrite Hk, Ht.
  cbn [bind]. pose proof (len_nonneg kb). pose proof (len_nonneg tb).
  rewrite !bytes_of_int_ok by (rewrite len_snoc; lia). cbn [bind].
  now rewrite Hv.
Qed.

Lemma compute_value_unsupported (v : pyvalue) :
  unsupported v = true -> SettingBytes._compute_value v = Err TypeError.
Proof. destruct v; simpl; intros H; (discriminate || reflexivity). Qed.

(** ** Faults of the patcher *)

Lemma requested_record_init_fault (data : pybytes) (key : pystr)
    (vd : value_data) (e : exn) :
  SettingBytes.__init__ key (vd_type vd) (vd_value vd) = Err e ->
  requested_record data (key, vd) = Err e.
Proof.
  intros H. unfold requested_record.
  destruct (encode key) as [kb|e'] eqn:Hk; cbn [bind].
  - now rewrite H.
  - unfold SettingBytes.__init__ in H. rewrite Hk in H. cbn [bind] in H.
    now injection H as <-.
Qed.

Lemma inserted_records_fault (data : pybytes) (pre post : settings)
    (item : pystr * value_data) (e : exn) :
  requested_record data item = Err e ->
  exists e', inserted_records data (pre ++ item :: post) = Err e'.
Proof.
  intros H. induction pre as [|p pre IH]; cbn [app inserted_records].
  - rewrite H. now exists e.
  - destruct (requested_record data p) as [r|e0]; cbn [bind]; [|now exists e0].
    destruct IH as [e' ->]. now exists e'.
Qed.

(** A fault in one requested setting aborts the whole call. *)
Lemma patch_fault (data : pybytes) (pre post : settings)
    (item : pystr * value_data) (e : exn) :
  requested_record data item = Err e ->
  exists e', locate_and_modify_player_settings data (pre ++ item :: post) = Err e'.
Proof.
  intros H. rewrite patch_eq.
  destruct (inserted_records_fault data pre post item e H) as [e' ->].
  now exists e'.
Qed.

(** Settings handled without an insertion leave no trace. *)
Lemma inserted_records_app (data : pybytes) (pre post : settings)
    (rs1 rs2 : list pybytes) :
  inserted_records data pre = Ok rs1 ->
  inserted_records data post = Ok rs2 ->
  inserted_records data (pre ++ post) = Ok (rs1 ++ rs2).
Proof.
  revert rs1; induction pre as [|p pre IH]; intros rs1 H1 H2.
  - simpl in H1. injection H1 as <-. exact H2.
  - cbn [app inserted_records] in *.
    destruct (requested_record data p) as [r|e]; cbn [bind] in *; [|discriminate].
    destruct (inserted_records data pre) as [rs|e]; cbn [bind] in *; [|discriminate].
    injection H1 as <-. rewrite (IH rs eq_refl H2). cbn [bind].
    now destruct r.
Qed.

(** ** The decision taken for one requested setting *)

Lemma requested_record_unfold (data : pybytes) (key : pystr) (vd : value_data)
    (sb : SettingBytes.t) :
  SettingBytes.__init__ key (vd_type vd) (vd_value vd) = Ok sb ->
  requested_record data (key, vd) =
  if find data (SettingBytes.key sb) =? -1 then
    d <- getitem DEFAULT_SETTINGS key ;;
    Ok (if py_ne (vd_value vd) d then Some (SettingBytes.bytes sb) else None)
  else Ok None.
Proof.
  intros H. destruct (init_key _ _ _ _ H) as (kb & Hk & ->).
  unfold requested_record. rewrite Hk. cbn [bind]. now rewrite H.
Qed.

Lemma requested_record_present (data : pybytes) (key : pystr) (vd : value_data)
    (sb : SettingBytes.t) :
  SettingBytes.__init__ key (vd_type vd) (vd_value vd) = Ok sb ->
  occurs (SettingBytes.key sb) data ->
  requested_record data (key, vd) = Ok None.
Proof.
  intros H Ho. rewrite (requested_record_unfold _ _ _ _ H).
  apply find_occurs in Ho.
  destruct (find data (SettingBytes.key sb) =? -1) eqn:E; [|reflexivity].
  apply Z.eqb_eq in E. lia.
Qed.

Lemma requested_record_absent (data : pybytes) (key : pystr) (vd : value_data)
    (sb : SettingBytes.t) :
  SettingBytes.__init__ key (vd_type vd) (vd_value vd) = Ok sb ->
  ~ occurs (SettingBytes.key sb) data ->
  requested_record data (key, vd) =
  (d <- getitem DEFAULT_SETTINGS key ;;
   Ok (if py_ne (vd_value vd) d then Some (SettingBytes.bytes sb) else None)).
Proof.
  intros H Ho. rewrite (requested_record_unfold _ _ _ _ H).
  apply find_miss_iff in Ho. now rewrite Ho.
Qed.

Lemma requested_record_Some (data : pybytes) (key : pystr) (vd : value_data)
    (r : pybytes) :
  requested_record data (key, vd) = Ok (Some r) ->
  exists sb d,
    SettingBytes.__init__ key (vd_type vd) (vd_value vd) = Ok sb /\
    ~ occurs (SettingBytes.key sb) data /\
    getitem DEFAULT_SETTINGS key = Ok d /\
    py_ne (vd_value vd) d = true /\
    r = SettingBytes.bytes sb.
Proof.
  intros H.
  destruct (SettingBytes.__init__ key (vd_type vd) (vd_value vd)) as [sb|e] eqn:E.
  - rewrite (requested_record_unfold _ _ _ _ E) in H.
    destruct (find data (SettingBytes.key sb) =? -1) eqn:F; [|discriminate].
    apply Z.eqb_eq, find_miss_iff in F.
    destruct (getitem DEFAULT_SETTINGS key) as [d|e]; cbn [bind] in H;
      [|discriminate].
    destruct (py_ne (vd_value vd) d) eqn:P; [|discriminate].
    injection H as <-. now exists sb, d.
  - rewrite (requested_record_init_fault _ _ _ _ E) in H. discriminate.
Qed.

(** * The claims *)

(** ** The codec *)

(** C1: whenever the codec builds a record, its bytes are exactly
    keyLengthHeader(4) || key || NUL || typeLengthHeader(4) || typeTag || NUL
    || 8 zero bytes || valueBytes || NUL, the low byte of each header being
    the length of the name plus one; the codec builds that record for every
    key and type tag whose header is representable and every supported value;
    and the record for ('bUsingPhysicalGunstock', 'BoolProperty', true) is
    the one of the module docstring. *)
Theorem C1_record_layout :
  (forall k dt v sb,
      SettingBytes.__init__ k dt v = Ok sb ->
      exists kb tb vb,
        encode k = Ok kb /\ encode dt = Ok tb /\
        SettingBytes._compute_value v = Ok vb /\
        SettingBytes.bytes sb = record_layout kb tb vb /\
        Z.of_N (Byte.to_N (hd x00 (length_header kb))) = len kb + 1 /\
        Z.of_N (Byte.to_N (hd x00 (length_header tb))) = len tb + 1) /\
  (forall k dt v kb tb vb,
      encode k = Ok kb -> encode dt = Ok tb ->
      SettingBytes._compute_value v = Ok vb ->
      len kb + 1 < 256 -> len tb + 1 < 256 ->
      exists sb, SettingBytes.__init__ k dt v = Ok sb /\
                 SettingBytes.bytes sb = record_layout kb tb vb) /\
  (exists sb,
      SettingBytes.__init__ (lit "bUsingPhysicalGunstock") (lit "BoolProperty")
                            (PyBool true) = Ok sb /\
      SettingBytes.bytes sb = gunstock_record).
Proof.
  split; [|split].
  - intros k dt v sb H.
    apply init_inv in H as (kb & tb & vb & Hk & Ht & Hv & Lk & Lt & Hb).
    exists kb, tb, vb. repeat split; try assumption.
    + unfold length_header, len in *. cbn [hd].
      rewrite byte_of_N_to_N by lia. lia.
    + unfold length_header, len in *. cbn [hd].
      rewrite byte_of_N_to_N by lia. lia.
  - intros k dt v kb tb vb. apply init_ok.
  - eexists. split; reflexivity.
Qed.

Lemma C1_record_layout_witness :
  exists sb,
    SettingBytes.__init__ (lit "bFullBodyIK") (lit "BoolProperty")
                          (PyBool false) = Ok sb /\
    SettingBytes.bytes sb =
    record_layout (ascii_bytes "bFullBodyIK") (ascii_bytes "BoolProperty") [x00].
Proof.
  apply (proj1 (proj2 C1_record_layout)); reflexivity.
Defined.

(** C5: the value bytes are one byte equal to the integer for a boolean (0
    or 1) or an integer (that fits a byte), the UTF-8 bytes of a string with
    nothing added, a byte sequence unchanged; any other shape raises
    [TypeError], and a request holding such a value makes the whole patch
    call end in an error, with no buffer returned. *)
Theorem C5_value_encoding :
  (forall b,
      SettingBytes._compute_value (PyBool b) = Ok [if b then x01 else x00]) /\
  (forall n, 0 <= n < 256 ->
      exists b, SettingBytes._compute_value (PyInt n) = Ok [b] /\
                Z.of_N (Byte.to_N b) = n) /\
  (forall s, SettingBytes._compute_value (PyStr s) = encode s) /\
  (forall bs, SettingBytes._compute_value (PyBytes bs) = Ok bs) /\
  (forall v, unsupported v = true ->
      SettingBytes._compute_value v = Err TypeError /\
      forall data pre key ty post,
      exists e,
        locate_and_modify_player_settings data
          (pre ++ (key, {| vd_type := ty; vd_value := v |}) :: post) = Err e).
Proof.
  repeat split.
  - now intros [|].
  - intros n Hn. exists (byte_of_N (Z.to_N n)). split.
    + cbn [SettingBytes._compute_value]. now rewrite bytes_of_int_ok.
    + rewrite byte_of_N_to_N by lia. lia.
  - now apply compute_value_unsupported.
  - intros data pre key ty post.
    destruct (init_value_fault key ty v TypeError) as [e He];
      [now apply compute_value_unsupported|].
    apply (patch_fault data pre post _ e).
    now apply requested_record_init_fault.
Qed.

Lemma C5_value_encoding_witness :
  (exists b, SettingBytes._compute_value (PyInt 200) = Ok [b] /\
             Z.of_N (Byte.to_N b) = 200) /\
  SettingBytes._compute_value PyOther = Err TypeError /\
  exists e,
    locate_and_modify_player_settings sample_save
      ([gunstock_on] ++
       (lit "bFullBodyIK", {| vd_type := lit "BoolProperty"; vd_value := PyOther |})
       :: []) = Err e.
Proof.
  destruct C5_value_encoding as (_ & Hint & _ & _ & Hother).
  split; [apply Hint; lia|].
  destruct (Hother PyOther eq_refl) as [Hv Hp].
  split; [exact Hv | apply Hp].
Defined.

(** C8, as the code has it: a key or type tag whose encoded length with its
    terminator is 256 or more makes the codec raise [ValueError], no record
    is built; and so does an integer value of 256 or more. *)
Theorem C8_oversized_raises :
  (forall k dt v kb tb,
      encode k = Ok kb -> encode dt = Ok tb ->
      256 <= len kb + 1 \/ 256 <= len tb + 1 ->
      SettingBytes.__init__ k dt v = Err ValueError) /\
  (forall n, 256 <= n ->
      SettingBytes._compute_value (PyInt n) = Err ValueError) /\
  (forall k dt n kb tb,
      encode k = Ok kb -> encode dt = Ok tb -> 256 <= n ->
      SettingBytes.__init__ k dt (PyInt n) = Err ValueError).
Proof.
  split; [|split].
  - intros k dt v kb tb. apply init_name_too_long.
  - intros n Hn. cbn [SettingBytes._compute_value].
    now rewrite bytes_of_int_err by lia.
  - intros k dt n kb tb Hk Ht Hn.
    destruct (Z_lt_dec (len kb + 1) 256) as [Lk|Lk];
      [|apply (init_name_too_long k dt _ kb tb); (assumption || lia)].
    destruct (Z_lt_dec (len tb + 1) 256) as [Lt|Lt];
      [|apply (init_name_too_long k dt _ kb tb); (assumption || lia)].
    apply (init_value_fault_exact k dt _ kb tb); try assumption.
    cbn [SettingBytes._compute_value]. now rewrite bytes_of_int_err by lia.
Qed.

Lemma C8_oversized_raises_witness :
  SettingBytes.__init__ (lit "bFullBodyIK") long_name (PyBool true)
    = Err ValueError /\
  SettingBytes._compute_value (PyInt 1000) = Err ValueError /\
  SettingBytes.__init__ (lit "bFullBodyIK") (lit "ByteProperty") (PyInt 300)
    = Err ValueError.
Proof.
  destruct C8_oversized_raises as (Hname & Hint & Hrec).
  split; [|split].
  - apply (Hname _ _ _ (ascii_bytes "bFullBodyIK") (repeat x61 255));
      [reflexivity | vm_compute; reflexivity | right; vm_compute; discriminate].
  - apply Hint. lia.
  - apply (Hrec _ _ _ (ascii_bytes "bFullBodyIK") (ascii_bytes "ByteProperty"));
      [reflexivity | reflexivity | lia].
Defined.

(** C8 as stated fails: with a key of 255 characters (256 bytes with its
    terminator) the codec does not succeed, it raises [ValueError]; and so it
    does for the integer value 256. *)
Lemma C8_counterexample :
  SettingBytes.__init__ long_name (lit "BoolProperty") (PyBool true)
    = Err ValueError /\
  SettingBytes.__init__ (lit "bFullBodyIK") (lit "ByteProperty") (PyInt 256)
    = Err ValueError.
Proof. split; vm_compute; reflexivity. Qed.

(** ** The patcher *)

Lemma length_concat_rev (rs : list pybytes) :
  List.length (List.concat (rev rs)) = total_length rs.
Proof.
  unfold total_length. induction rs as [|r rs IH]; [reflexivity|].
  cbn [rev]. rewrite concat_app, length_app, IH. simpl.
  rewrite app_nil_r, length_app. lia.
Qed.

Lemma any_record_app (rs1 rs2 : list pybytes) (r : pybytes) :
  any_record (rs1 ++ r :: rs2) = true.
Proof. now destruct rs1. Qed.

Lemma at_offset_app (a r b : pybytes) (k : nat) :
  List.length a = k -> at_offset k r (a ++ r ++ b).
Proof.
  intros <-. unfold at_offset.
  rewrite skipn_app, Nat.sub_diag, skipn_all2 by lia. cbn [skipn app].
  rewrite firstn_app, Nat.sub_diag, firstn_all2 by lia. cbn [firstn].
  apply app_nil_r.
Qed.

Lemma firstn_exact {A : Type} (a b : list A) :
  firstn (List.length a) (a ++ b) = a.
Proof.
  rewrite firstn_app, Nat.sub_diag, firstn_all2 by lia. apply app_nil_r.
Qed.

Lemma skipn_exact {A : Type} (a b : list A) :
  skipn (List.length a) (a ++ b) = b.
Proof.
  now rewrite skipn_app, Nat.sub_diag, skipn_all2 by lia.
Qed.

(** The patcher on a buffer that holds the anchor: the requested records,
    last requested first, right after the first occurrence of the anchor. *)
Lemma patch_anchored (data : pybytes) (s : settings) (rs : list pybytes) :
  occurs data_anchor data ->
  inserted_records data s = Ok rs ->
  exists pre post,
    data = pre ++ data_anchor ++ post /\
    (forall pre' post',
        data = pre' ++ data_anchor ++ post' -> len pre <= len pre') /\
    Z.to_nat (insertion_index data) = List.length (pre ++ data_anchor) /\
    locate_and_modify_player_settings data s =
    Ok (if any_record rs
        then Some ((pre ++ data_anchor) ++ List.concat (rev rs) ++ post)
        else None).
Proof.
  intros Ho Hrs. apply find_occurs in Ho.
  destruct (insertion_index_hit data) as (pre & post & Hd & Hf & Hm & Hi); [lia|].
  exists pre, post. repeat split; try assumption.
  rewrite patch_eq, Hrs. cbn [bind]. destruct (any_record rs); [|reflexivity].
  rewrite fold_slice_insert by apply insertion_index_nonneg.
  rewrite Hi, fold_splice by (rewrite Hd, !length_app; lia).
  assert (data = (pre ++ data_anchor) ++ post) as Hd'
    by (now rewrite <- app_assoc).
  rewrite Hd' at 1 2.
  now rewrite firstn_exact, skipn_exact.
Qed.

(** C7: when a patch call performs two or more insertions, the output is
    the input with the inserted records placed immediately after the (first
    occurrence of the) anchor, in reverse request-iteration order. *)
Theorem C7_reverse_request_order (data : pybytes) (s : settings)
    (rs : list pybytes) :
  occurs data_anchor data ->
  inserted_records data s = Ok rs ->
  (2 <= List.length rs)%nat ->
  exists pre post,
    data = pre ++ data_anchor ++ post /\
    (forall pre' post',
        data = pre' ++ data_anchor ++ post' -> len pre <= len pre') /\
    locate_and_modify_player_settings data s =
    Ok (Some ((pre ++ data_anchor) ++ List.concat (rev rs) ++ post)).
Proof.
  intros Ho Hrs Hn.
  destruct (patch_anchored data s rs Ho Hrs) as (pre & post & Hd & Hm & _ & Hp).
  exists pre, post. repeat split; try assumption.
  rewrite Hp. destruct rs; [simpl in Hn; lia | reflexivity].
Qed.

Lemma sample_save_anchor : occurs data_anchor sample_save.
Proof. now exists (repeat xff 100), (repeat xee 7). Qed.

Lemma C7_reverse_request_order_witness :
  exists pre post,
    sample_save = pre ++ data_anchor ++ post /\
    (forall pre' post',
        sample_save = pre' ++ data_anchor ++ post' -> len pre <= len pre') /\
    locate_and_modify_player_settings sample_save [gunstock_on; body_ik_off] =
    Ok (Some ((pre ++ data_anchor) ++
              List.concat (rev [gunstock_record; body_ik_record]) ++ post)).
Proof.
  apply (C7_reverse_request_order sample_save [gunstock_on; body_ik_off]
           [gunstock_record; body_ik_record]).
  - exact sample_save_anchor.
  - vm_compute. reflexivity.
  - simpl. lia.
Defined.

Lemma total_length_app (rs1 rs2 : list pybytes) :
  total_length (rs1 ++ rs2) = (total_length rs1 + total_length rs2)%nat.
Proof. unfold total_length. now rewrite concat_app, length_app. Qed.

Lemma total_length_cons (r : pybytes) (rs : list pybytes) :
  total_length (r :: rs) = (List.length r + total_length rs)%nat.
Proof. unfold total_length. simpl. now rewrite length_app. Qed.

Lemma inserted_records_insert (data : pybytes) (key : pystr) (vd : value_data)
    (sb : SettingBytes.t) (d : bool) (post : settings) (rs : list pybytes) :
  SettingBytes.__init__ key (vd_type vd) (vd_value vd) = Ok sb ->
  ~ occurs (SettingBytes.key sb) data ->
  getitem DEFAULT_SETTINGS key = Ok d ->
  py_ne (vd_value vd) d = true ->
  inserted_records data post = Ok rs ->
  inserted_records data ((key, vd) :: post) = Ok (SettingBytes.bytes sb :: rs).
Proof.
  intros Hi Ha Hd Hne Hrs. cbn [inserted_records].
  rewrite (requested_record_absent _ _ _ _ Hi Ha), Hd. cbn [bind].
  now rewrite Hne, Hrs.
Qed.

(** C2, as the code has it: for a requested setting whose key bytes do not
    occur in the buffer and whose value differs from the default, in a call
    that runs to its end on a buffer holding the anchor, the patcher returns
    a buffer whose length is the input length plus the lengths of all the
    records the call inserts (this setting's record alone when it is the only
    one), and the setting's record sits in the output at the insertion point
    shifted by the total length of the records inserted for later settings
    (at the insertion point itself when no later setting inserts). *)
Theorem C2_inserted_record_length_and_place (data : pybytes)
    (pre post : settings) (key : pystr) (vd : value_data)
    (sb : SettingBytes.t) (d : bool) (rs1 rs2 : list pybytes) :
  SettingBytes.__init__ key (vd_type vd) (vd_value vd) = Ok sb ->
  ~ occurs (SettingBytes.key sb) data ->
  getitem DEFAULT_SETTINGS key = Ok d ->
  py_ne (vd_value vd) d = true ->
  occurs data_anchor data ->
  inserted_records data pre = Ok rs1 ->
  inserted_records data post = Ok rs2 ->
  exists out,
    locate_and_modify_player_settings data (pre ++ (key, vd) :: post)
      = Ok (Some out) /\
    List.length out =
      (List.length data + total_length rs1
       + List.length (SettingBytes.bytes sb) + total_length rs2)%nat /\
    at_offset (Z.to_nat (insertion_index data) + total_length rs2)
              (SettingBytes.bytes sb) out /\
    insertion_index data = find data data_anchor + len data_anchor.
Proof.
  intros Hi Ha Hd Hne Ho H1 H2.
  pose proof (inserted_records_insert _ _ _ _ _ _ _ Hi Ha Hd Hne H2) as H3.
  pose proof (inserted_records_app _ _ _ _ _ H1 H3) as Hrs.
  destruct (patch_anchored _ _ _ Ho Hrs) as (p0 & q0 & Hdata & _ & Hk & Hp).
  rewrite any_record_app in Hp. eexists. split; [exact Hp|].
  set (r := SettingBytes.bytes sb) in *.
  assert (List.concat (rev (rs1 ++ r :: rs2)) =
          List.concat (rev rs2) ++ r ++ List.concat (rev rs1)) as ->.
  { rewrite rev_app_distr. cbn [rev]. rewrite !concat_app. simpl.
    now rewrite app_nil_r, <- app_assoc. }
  split; [|split; [|reflexivity]].
  - rewrite Hdata, !length_app, !length_concat_rev. lia.
  - replace ((p0 ++ data_anchor) ++
             (List.concat (rev rs2) ++ r ++ List.concat (rev rs1)) ++ q0)
      with (((p0 ++ data_anchor) ++ List.concat (rev rs2)) ++
            r ++ (List.concat (rev rs1) ++ q0))
      by (now rewrite <- !app_assoc).
    apply at_offset_app. rewrite length_app, length_concat_rev, Hk. lia.
Qed.

Lemma gunstock_absent_sample :
  ~ occurs (ascii_bytes "bUsingPhysicalGunstock" ++ [x00]) sample_save.
Proof. apply find_miss_iff. vm_compute. reflexivity. Qed.

Lemma C2_inserted_record_length_and_place_witness :
  exists out,
    locate_and_modify_player_settings sample_save ([] ++ gunstock_on :: [])
      = Ok (Some out) /\
    List.length out =
      (List.length sample_save + total_length []
       + List.length (SettingBytes.bytes gunstock_sb) + total_length [])%nat /\
    at_offset (Z.to_nat (insertion_index sample_save) + total_length [])
              (SettingBytes.bytes gunstock_sb) out /\
    insertion_index sample_save = find sample_save data_anchor + len data_anchor.
Proof.
  apply (C2_inserted_record_length_and_place sample_save [] []
           (lit "bUsingPhysicalGunstock")
           {| vd_type := lit "BoolProperty"; vd_value := PyBool true |}
           gunstock_sb false [] []).
  - reflexivity.
  - exact gunstock_absent_sample.
  - reflexivity.
  - reflexivity.
  - exact sample_save_anchor.
  - reflexivity.
  - reflexivity.
Defined.

(** C2 as stated fails when the call inserts two records: the output is
    longer than the input by both records, and the record of the setting
    requested first no longer starts at the insertion point. *)
Lemma C2_counterexample :
  ~ occurs (ascii_bytes "bUsingPhysicalGunstock" ++ [x00]) sample_save /\
  getitem DEFAULT_SETTINGS (lit "bUsingPhysicalGunstock") = Ok false /\
  py_ne (PyBool true) false = true /\
  exists out,
    locate_and_modify_player_settings sample_save [gunstock_on; body_ik_off]
      = Ok (Some out) /\
    List.length out
      <> (List.length sample_save + List.length gunstock_record)%nat /\
    ~ at_offset (Z.to_nat (insertion_index sample_save)) gunstock_record out.
Proof.
  split; [exact gunstock_absent_sample|].
  split; [reflexivity|].
  split; [reflexivity|].
  eexists. split; [vm_compute; reflexivity|].
  split.
  - vm_compute. discriminate.
  - intros H. vm_compute in H. discriminate H.
Qed.

Lemma insertion_index_miss (data : pybytes) :
  ~ occurs data_anchor data -> insertion_index data = 24.
Proof.
  intros H. apply find_miss_iff in H. unfold insertion_index.
  now rewrite H, len_data_anchor.
Qed.

(** C6, as the code has it: when the anchor does not occur in the buffer the
    patcher does not fail on that account; its insertion index is -1 plus the
    anchor length, 24, and each record is put into the working buffer at
    offset 24, or at its end while the working buffer is shorter than 24
    bytes. *)
Theorem C6_anchor_absent (data : pybytes) (s : settings) (rs : list pybytes) :
  ~ occurs data_anchor data ->
  inserted_records data s = Ok rs ->
  insertion_index data = -1 + len data_anchor /\
  insertion_index data = 24 /\
  locate_and_modify_player_settings data s =
    Ok (if any_record rs then Some (fold_left (splice 24) rs data) else None) /\
  ((24 <= List.length data)%nat ->
   fold_left (splice 24) rs data =
   firstn 24 data ++ List.concat (rev rs) ++ skipn 24 data) /\
  (forall b r, (24 <= List.length b)%nat -> at_offset 24 r (splice 24 b r)) /\
  (forall b r, (List.length b < 24)%nat -> splice 24 b r = b ++ r).
Proof.
  intros Ha Hrs. pose proof (insertion_index_miss data Ha) as Hi.
  split; [rewrite Hi; reflexivity|]. split; [exact Hi|]. split; [|split; [|split]].
  - rewrite patch_eq, Hrs. cbn [bind]. rewrite Hi.
    now rewrite fold_slice_insert by lia.
  - intros Hl. now apply fold_splice.
  - intros b r Hl. unfold splice. apply at_offset_app.
    rewrite length_firstn. lia.
  - intros b r Hl. unfold splice.
    rewrite firstn_all2, skipn_all2 by lia. now rewrite app_nil_r.
Qed.

Lemma no_anchor_in_empty : ~ occurs data_anchor [].
Proof. apply find_miss_iff. reflexivity. Qed.

Lemma C6_anchor_absent_witness :
  insertion_index (repeat xff 30) = -1 + len data_anchor /\
  insertion_index (repeat xff 30) = 24 /\
  locate_and_modify_player_settings (repeat xff 30) [gunstock_on; body_ik_off] =
    Ok (if any_record [gunstock_record; body_ik_record]
        then Some (fold_left (splice 24) [gunstock_record; body_ik_record]
                             (repeat xff 30))
        else None) /\
  ((24 <= List.length (repeat xff 30))%nat ->
   fold_left (splice 24) [gunstock_record; body_ik_record] (repeat xff 30) =
   firstn 24 (repeat xff 30)
     ++ List.concat (rev [gunstock_record; body_ik_record])
     ++ skipn 24 (repeat xff 30)) /\
  (forall b r, (24 <= List.length b)%nat -> at_offset 24 r (splice 24 b r)) /\
  (forall b r, (List.length b < 24)%nat -> splice 24 b r = b ++ r).
Proof.
  apply (C6_anchor_absent (repeat xff 30) [gunstock_on; body_ik_off]
           [gunstock_record; body_ik_record]).
  - apply find_miss_iff. vm_compute. reflexivity.
  - vm_compute. reflexivity.
Defined.

(** C6 as stated fails on a buffer shorter than 24 bytes: on the empty
    buffer the record is not put at offset 24, the output is the record
    alone. *)
Lemma C6_counterexample :
  ~ occurs data_anchor [] /\
  insertion_index [] = 24 /\
  locate_and_modify_player_settings [] [gunstock_on] = Ok (Some gunstock_record) /\
  ~ at_offset 24 gunstock_record gunstock_record.
Proof.
  split; [exact no_anchor_in_empty|]. split; [reflexivity|].
  split; [vm_compute; reflexivity|].
  intros H. vm_compute in H. discriminate H.
Qed.

Lemma inserted_records_none (data : pybytes) (s : settings) :
  Forall (fun item => requested_record data item = Ok None) s ->
  inserted_records data s = Ok [].
Proof.
  induction 1 as [|item s Hi _ IH]; [reflexivity|].
  cbn [inserted_records]. now rewrite Hi, IH.
Qed.

Lemma inserted_records_In (data : pybytes) (s : settings) (rs : list pybytes)
    (r : pybytes) :
  inserted_records data s = Ok rs -> In r rs ->
  exists item, In item s /\ requested_record data item = Ok (Some r).
Proof.
  revert rs; induction s as [|item s IH]; intros rs H Hin.
  - simpl in H. injection H as <-. contradiction.
  - cbn [inserted_records] in H.
    destruct (requested_record data item) as [o|e] eqn:E; cbn [bind] in H;
      [|discriminate].
    destruct (inserted_records data s) as [rs'|e]; cbn [bind] in H;
      [|discriminate].
    injection H as <-.
    assert (In r rs' -> exists it, In it (item :: s) /\
                                   requested_record data it = Ok (Some r)) as Hrest.
    { intros Hr. destruct (IH rs' eq_refl Hr) as (it & Hit & Hreq).
      exists it. split; [now right | assumption]. }
    destruct o as [r0|]; [|now apply Hrest].
    destruct Hin as [<-|Hr]; [|now apply Hrest].
    exists item. split; [now left | assumption].
Qed.

Lemma requested_record_nonempty (data : pybytes) (item : pystr * value_data)
    (r : pybytes) :
  requested_record data item = Ok (Some r) -> (0 < List.length r)%nat.
Proof.
  destruct item as [key vd]. intros H.
  apply requested_record_Some in H as (sb & d & Hi & _ & _ & _ & ->).
  now apply init_bytes_nonempty in Hi.
Qed.

(** A returned buffer is never the input: it holds an inserted record. *)
Lemma patch_Some (data : pybytes) (s : settings) (out : pybytes) :
  locate_and_modify_player_settings data s = Ok (Some out) ->
  (exists item r, In item s /\ requested_record data item = Ok (Some r)) /\
  (List.length data < List.length out)%nat.
Proof.
  rewrite patch_eq. intros H.
  destruct (inserted_records data s) as [rs|e] eqn:E; cbn [bind] in H;
    [|discriminate].
  destruct rs as [|r rs]; cbn [any_record] in H; [discriminate|].
  injection H as <-.
  destruct (inserted_records_In data s (r :: rs) r E) as (item & Hin & Hreq);
    [now left|].
  split; [now exists item, r|].
  pose proof (fold_slice_insert_length (insertion_index data) (r :: rs) data
                (insertion_index_nonneg data)) as Hlen.
  rewrite total_length_cons in Hlen. cbn [fold_left] in Hlen |- *.
  apply requested_record_nonempty in Hreq. lia.
Qed.

(** C3, as the code has it: a requested setting whose key bytes are absent
    from the buffer and whose value equals the default leaves the loop state
    as it was, nothing is inserted for it; when every requested setting is
    handled without a fault and none triggers an insertion the patcher
    returns [None]; and a buffer that the patcher returns is never a copy of
    the input, it holds an inserted record. *)
Theorem C3_default_value_no_insertion :
  (forall data i st key vd sb d,
      SettingBytes.__init__ key (vd_type vd) (vd_value vd) = Ok sb ->
      ~ occurs (SettingBytes.key sb) data ->
      getitem DEFAULT_SETTINGS key = Ok d ->
      py_ne (vd_value vd) d = false ->
      loop_body data i st (key, vd) = Ok st) /\
  (forall data s,
      Forall (fun item => requested_record data item = Ok None) s ->
      locate_and_modify_player_settings data s = Ok None) /\
  (forall data s out,
      locate_and_modify_player_settings data s = Ok (Some out) ->
      (exists item r, In item s /\ requested_record data item = Ok (Some r)) /\
      out <> data).
Proof.
  split; [|split].
  - intros data i [md m] key vd sb d Hi Ha Hd Hne.
    rewrite loop_body_eq, (requested_record_absent _ _ _ _ Hi Ha), Hd.
    cbn [bind]. now rewrite Hne.
  - intros data s H. rewrite patch_eq, (inserted_records_none _ _ H).
    reflexivity.
  - intros data s out H. apply patch_Some in H as [H1 H2].
    split; [assumption|]. intros ->. lia.
Qed.

Lemma body_ik_absent_sample :
  ~ occurs (ascii_bytes "bFullBodyIK" ++ [x00]) sample_save.
Proof. apply find_miss_iff. vm_compute. reflexivity. Qed.

Lemma C3_default_value_no_insertion_witness :
  loop_body sample_save 125 (sample_save, false) gunstock_off
    = Ok (sample_save, false) /\
  locate_and_modify_player_settings sample_save [gunstock_off] = Ok None /\
  gunstock_record <> [].
Proof.
  destruct C3_default_value_no_insertion as (Hstep & Hnone & Hcopy).
  split; [|split].
  - apply (Hstep sample_save 125 (sample_save, false)
             (lit "bUsingPhysicalGunstock")
             {| vd_type := lit "BoolProperty"; vd_value := PyBool false |}
             (SettingBytes.mk (ascii_bytes "bUsingPhysicalGunstock" ++ [x00])
                (ascii_bytes "BoolProperty" ++ [x00]) (zeros 8) (PyBool false)
                [x17; x00; x00; x00] [x0d; x00; x00; x00] [x00]
                (record_layout (ascii_bytes "bUsingPhysicalGunstock")
                               (ascii_bytes "BoolProperty") [x00]))
             false).
    + reflexivity.
    + exact gunstock_absent_sample.
    + reflexivity.
    + reflexivity.
  - apply Hnone. constructor; [vm_compute; reflexivity | constructor].
  - apply (Hcopy [] [gunstock_on] gunstock_record). vm_compute. reflexivity.
Defined.

(** C3 as stated fails when handling a setting raises: [bFullBodyIK] is
    absent from the buffer and the requested [1.0] equals its default
    [True], no insertion is triggered, yet the call does not return [None],
    it raises [TypeError]. *)
Lemma C3_counterexample :
  ~ occurs (ascii_bytes "bFullBodyIK" ++ [x00]) sample_save /\
  getitem DEFAULT_SETTINGS (lit "bFullBodyIK") = Ok true /\
  py_ne (PyFloat 1) true = false /\
  locate_and_modify_player_settings sample_save
    [request "bFullBodyIK" "BoolProperty" (PyFloat 1)] = Err TypeError.
Proof.
  split; [exact body_ik_absent_sample|].
  repeat split; vm_compute; reflexivity.
Qed.

Lemma find_hit_occurs (data sub : pybytes) :
  find data sub <> -1 -> occurs sub data.
Proof.
  intros H. destruct (find_hit _ _ H) as (pre & post & Hd & _).
  now exists pre, post.
Qed.

(** C4, as the code has it: a requested setting whose key bytes occur in the
    buffer and whose record can be built leaves the loop state as it was,
    whatever the value it asks for; and when every requested setting is of
    that kind the patcher returns [None], the buffer untouched. *)
Theorem C4_present_key_untouched :
  (forall data i st key vd sb,
      SettingBytes.__init__ key (vd_type vd) (vd_value vd) = Ok sb ->
      occurs (SettingBytes.key sb) data ->
      loop_body data i st (key, vd) = Ok st) /\
  (forall data s,
      Forall (fun item =>
                exists sb,
                  SettingBytes.__init__ (fst item) (vd_type (snd item))
                                        (vd_value (snd item)) = Ok sb /\
                  occurs (SettingBytes.key sb) data) s ->
      locate_and_modify_player_settings data s = Ok None).
Proof.
  split.
  - intros data i [md m] key vd sb Hi Ho.
    now rewrite loop_body_eq, (requested_record_present _ _ _ _ Hi Ho).
  - intros data s H. rewrite patch_eq.
    rewrite (inserted_records_none data s); [reflexivity|].
    eapply Forall_impl; [|exact H].
    intros [key vd] (sb & Hi & Ho). simpl in Hi.
    exact (requested_record_present _ _ _ _ Hi Ho).
Qed.

Lemma body_ik_present_sample :
  occurs (ascii_bytes "bFullBodyIK" ++ [x00]) sample_save_with_ik.
Proof. apply find_hit_occurs. vm_compute. discriminate. Qed.

Lemma C4_present_key_untouched_witness :
  loop_body sample_save_with_ik 125 (sample_save_with_ik, false) body_ik_off
    = Ok (sample_save_with_ik, false) /\
  locate_and_modify_player_settings sample_save_with_ik [body_ik_off] = Ok None.
Proof.
  destruct C4_present_key_untouched as (Hstep & Hnone).
  split.
  - apply (Hstep sample_save_with_ik 125 (sample_save_with_ik, false)
             (lit "bFullBodyIK")
             {| vd_type := lit "BoolProperty"; vd_value := PyBool false |}
             body_ik_sb).
    + reflexivity.
    + exact body_ik_present_sample.
  - apply Hnone. constructor; [|constructor].
    exists body_ik_sb. split; [reflexivity | exact body_ik_present_sample].
Defined.

(** C4 as stated fails for a value the codec cannot encode: with the key
    [bFullBodyIK] present in the buffer and the requested value [None], the
    call does not return the sentinel, it raises [TypeError]. *)
Lemma C4_counterexample :
  occurs (ascii_bytes "bFullBodyIK" ++ [x00]) sample_save_with_ik /\
  locate_and_modify_player_settings sample_save_with_ik
    [request "bFullBodyIK" "BoolProperty" PyOther] = Err TypeError.
Proof.
  split; [exact body_ik_present_sample | vm_compute; reflexivity].
Qed.

(** ** Which faults can arise where *)

Lemma encode_cp_fault (c : N) (e : exn) :
  encode_cp c = Err e -> e = UnicodeEncodeError.
Proof.
  unfold encode_cp.
  repeat match goal with
         | |- context [if ?b then _ else _] => destruct b
         end; intros H; (discriminate H || now injection H).
Qed.

Lemma encode_fault (s : pystr) (e : exn) :
  encode s = Err e -> e = UnicodeEncodeError.
Proof.
  induction s as [|c s IH]; cbn [encode]; intros H; [discriminate|].
  destruct (encode_cp c) as [b|e0] eqn:Ec; cbn [bind] in H.
  - destruct (encode s) as [bs|e1]; cbn [bind] in H; [discriminate|].
    injection H as <-. now apply IH.
  - injection H as <-. now apply encode_cp_fault in Ec.
Qed.

Lemma bytes_of_int_fault (n : Z) (e : exn) :
  bytes_of_int n = Err e -> e = ValueError.
Proof.
  unfold bytes_of_int.
  destruct ((0 <=? n) && (n <? 256)); [destruct (Byte.of_N (Z.to_N n))|];
    intros H; (discriminate H || now injection H).
Qed.

Lemma compute_value_fault (v : pyvalue) (e : exn) :
  SettingBytes._compute_value v = Err e -> e <> KeyError.
Proof.
  destruct v as [b|n|s|bs|q|]; cbn [SettingBytes._compute_value]; intros H.
  - destruct (bytes_of_int (int_of_bool b)) as [x|e0] eqn:E; cbn [bind] in H;
      [discriminate|].
    injection H as <-. apply bytes_of_int_fault in E. now subst.
  - destruct (bytes_of_int n) as [x|e0] eqn:E; cbn [bind] in H; [discriminate|].
    injection H as <-. apply bytes_of_int_fault in E. now subst.
  - apply encode_fault in H. now subst.
  - discriminate.
  - now injection H as <-.
  - now injection H as <-.
Qed.

(** The codec never raises [KeyError]. *)
Lemma init_fault_not_KeyError (k dt : pystr) (v : pyvalue) (e : exn) :
  SettingBytes.__init__ k dt v = Err e -> e <> KeyError.
Proof.
  unfold SettingBytes.__init__. intros H.
  destruct (encode k) as [kb|e0] eqn:Ek; cbn [bind] in H;
    [|injection H as <-; apply encode_fault in Ek; now subst].
  destruct (encode dt) as [tb|e0] eqn:Et; cbn [bind] in H;
    [|injection H as <-; apply encode_fault in Et; now subst].
  destruct (bytes_of_int (len (kb ++ [x00]))) as [h|e0] eqn:Eh; cbn [bind] in H;
    [|injection H as <-; apply bytes_of_int_fault in Eh; now subst].
  destruct (bytes_of_int (len (tb ++ [x00]))) as [m|e0] eqn:Em; cbn [bind] in H;
    [|injection H as <-; apply bytes_of_int_fault in Em; now subst].
  destruct (SettingBytes._compute_value v) as [vb|e0] eqn:Ev; cbn [bind] in H;
    [discriminate|].
  injection H as <-. now apply compute_value_fault in Ev.
Qed.

Lemma requested_record_KeyError (data : pybytes) (key : pystr)
    (vd : value_data) :
  requested_record data (key, vd) = Err KeyError ->
  exists sb,
    SettingBytes.__init__ key (vd_type vd) (vd_value vd) = Ok sb /\
    ~ occurs (SettingBytes.key sb) data /\
    getitem DEFAULT_SETTINGS key = Err KeyError.
Proof.
  intros H.
  destruct (SettingBytes.__init__ key (vd_type vd) (vd_value vd)) as [sb|e] eqn:E.
  - exists sb. rewrite (requested_record_unfold _ _ _ _ E) in H.
    destruct (find data (SettingBytes.key sb) =? -1) eqn:F; [|discriminate].
    apply Z.eqb_eq, find_miss_iff in F.
    destruct (getitem DEFAULT_SETTINGS key) as [d|e]; cbn [bind] in H;
      [discriminate|].
    injection H as ->. now repeat split.
  - rewrite (requested_record_init_fault _ _ _ _ E) in H. injection H as ->.
    now apply init_fault_not_KeyError in E.
Qed.

Lemma inserted_records_fault_from (data : pybytes) (s : settings) (e : exn) :
  inserted_records data s = Err e ->
  exists item, In item s /\ requested_record data item = Err e.
Proof.
  induction s as [|item s IH]; cbn [inserted_records]; intros H; [discriminate|].
  destruct (requested_record data item) as [o|e0] eqn:E; cbn [bind] in H.
  - destruct (inserted_records data s) as [rs|e1]; cbn [bind] in H;
      [discriminate|].
    injection H as <-. destruct (IH eq_refl) as (it & Hin & Hit).
    exists it. split; [now right | assumption].
  - injection H as <-. exists item. split; [now left | assumption].
Qed.

Lemma inserted_records_fault_exact (data : pybytes) (pre post : settings)
    (item : pystr * value_data) (rs : list pybytes) (e : exn) :
  inserted_records data pre = Ok rs ->
  requested_record data item = Err e ->
  inserted_records data (pre ++ item :: post) = Err e.
Proof.
  revert rs; induction pre as [|p pre IH]; intros rs Hpre H;
    cbn [app inserted_records] in *.
  - now rewrite H.
  - destruct (requested_record data p) as [o|e0]; cbn [bind] in *; [|discriminate].
    destruct (inserted_records data pre) as [rs'|e1]; cbn [bind] in *;
      [|discriminate].
    now rewrite (IH rs' eq_refl H).
Qed.

(** C9: the record of a requested setting is built before the patcher looks
    at whether its key is in the buffer or its value is the default, so a
    fault of the codec is the fault of the loop iteration whatever the buffer
    holds; a requested setting with an unsupported value shape therefore
    makes the whole call end in an error ([TypeError] when the settings
    before it are handled without fault and its names can be encoded), also
    when its key is present in the buffer or its value equals the default. *)
Theorem C9_record_built_before_branching :
  (forall data i st key vd e,
      SettingBytes.__init__ key (vd_type vd) (vd_value vd) = Err e ->
      loop_body data i st (key, vd) = Err e) /\
  (forall data pre post key vd,
      unsupported (vd_value vd) = true ->
      exists e,
        locate_and_modify_player_settings data (pre ++ (key, vd) :: post)
          = Err e) /\
  (forall data pre post key vd kb tb rs,
      unsupported (vd_value vd) = true ->
      inserted_records data pre = Ok rs ->
      encode key = Ok kb -> encode (vd_type vd) = Ok tb ->
      len kb + 1 < 256 -> len tb + 1 < 256 ->
      locate_and_modify_player_settings data (pre ++ (key, vd) :: post)
        = Err TypeError).
Proof.
  split; [|split].
  - intros data i [md m] key vd e H.
    now rewrite loop_body_eq, (requested_record_init_fault _ _ _ _ H).
  - intros data pre post key vd Hu.
    destruct (init_value_fault key (vd_type vd) (vd_value vd) TypeError)
      as [e He]; [now apply compute_value_unsupported|].
    apply (patch_fault data pre post _ e).
    now apply requested_record_init_fault.
  - intros data pre post key vd kb tb rs Hu Hpre Hk Ht Lk Lt.
    rewrite patch_eq.
    rewrite (inserted_records_fault_exact data pre post (key, vd) rs TypeError);
      [reflexivity | assumption |].
    apply requested_record_init_fault.
    apply (init_value_fault_exact _ _ _ kb tb); try assumption.
    now apply compute_value_unsupported.
Qed.

Lemma C9_record_built_before_branching_witness :
  (occurs (ascii_bytes "bFullBodyIK" ++ [x00]) sample_save_with_ik /\
   locate_and_modify_player_settings sample_save_with_ik
     ([gunstock_off] ++ request "bFullBodyIK" "BoolProperty" PyOther :: [])
     = Err TypeError) /\
  (py_ne (PyFloat 1) true = false /\
   locate_and_modify_player_settings sample_save
     ([] ++ request "bFullBodyIK" "BoolProperty" (PyFloat 1) :: [gunstock_on])
     = Err TypeError) /\
  loop_body sample_save_with_ik 125 (sample_save_with_ik, false)
    (request "bFullBodyIK" "BoolProperty" (PyInt (-1))) = Err ValueError.
Proof.
  destruct C9_record_built_before_branching as (Hstep & _ & Hexact).
  split; [|split].
  - split; [exact body_ik_present_sample|].
    apply (Hexact sample_save_with_ik [gunstock_off] []
             (lit "bFullBodyIK")
             {| vd_type := lit "BoolProperty"; vd_value := PyOther |}
             (ascii_bytes "bFullBodyIK") (ascii_bytes "BoolProperty") []);
      reflexivity.
  - split; [reflexivity|].
    apply (Hexact sample_save [] [gunstock_on]
             (lit "bFullBodyIK")
             {| vd_type := lit "BoolProperty"; vd_value := PyFloat 1 |}
             (ascii_bytes "bFullBodyIK") (ascii_bytes "BoolProperty") []);
      reflexivity.
  - apply (Hstep sample_save_with_ik 125 (sample_save_with_ik, false)
             (lit "bFullBodyIK")
             {| vd_type := lit "BoolProperty"; vd_value := PyInt (-1) |}).
    reflexivity.
Defined.

(** C10: a requested setting name that is not in the default-settings table
    raises [KeyError] when its key bytes are absent from the buffer, and only
    then: a patch call ends in [KeyError] only if some requested setting has
    an unknown name whose key bytes are absent from the buffer; with the key
    bytes of the unknown name present, the iteration leaves the state as it
    was without consulting the table, and the call completes. *)
Theorem C10_unknown_setting_name :
  (forall data i st key vd sb,
      getitem DEFAULT_SETTINGS key = Err KeyError ->
      SettingBytes.__init__ key (vd_type vd) (vd_value vd) = Ok sb ->
      ~ occurs (SettingBytes.key sb) data ->
      loop_body data i st (key, vd) = Err KeyError) /\
  (forall data s,
      locate_and_modify_player_settings data s = Err KeyError ->
      exists key vd sb,
        In (key, vd) s /\
        getitem DEFAULT_SETTINGS key = Err KeyError /\
        SettingBytes.__init__ key (vd_type vd) (vd_value vd) = Ok sb /\
        ~ occurs (SettingBytes.key sb) data) /\
  (forall data s,
      (forall key vd kb,
          In (key, vd) s -> getitem DEFAULT_SETTINGS key = Err KeyError ->
          encode key = Ok kb -> occurs (kb ++ [x00]) data) ->
      locate_and_modify_player_settings data s <> Err KeyError) /\
  (forall data i st key vd sb,
      getitem DEFAULT_SETTINGS key = Err KeyError ->
      SettingBytes.__init__ key (vd_type vd) (vd_value vd) = Ok sb ->
      occurs (SettingBytes.key sb) data ->
      loop_body data i st (key, vd) = Ok st /\
      locate_and_modify_player_settings data [(key, vd)] = Ok None).
Proof.
  assert (forall data s,
      locate_and_modify_player_settings data s = Err KeyError ->
      exists key vd sb,
        In (key, vd) s /\
        getitem DEFAULT_SETTINGS key = Err KeyError /\
        SettingBytes.__init__ key (vd_type vd) (vd_value vd) = Ok sb /\
        ~ occurs (SettingBytes.key sb) data) as Honly; [|split; [|split; [|split]]].
  - intros data s H. rewrite patch_eq in H.
    destruct (inserted_records data s) as [rs|e] eqn:E; cbn [bind] in H;
      [discriminate|].
    injection H as ->.
    apply inserted_records_fault_from in E as ([key vd] & Hin & Hreq).
    apply requested_record_KeyError in Hreq as (sb & Hi & Ha & Hd).
    now exists key, vd, sb.
  - intros data i [md m] key vd sb Hd Hi Ha.
    now rewrite loop_body_eq, (requested_record_absent _ _ _ _ Hi Ha), Hd.
  - exact Honly.
  - intros data s Hall H.
    destruct (Honly data s H) as (key & vd & sb & Hin & Hd & Hi & Ha).
    destruct (init_key _ _ _ _ Hi) as (kb & Hk & Hkey).
    apply Ha. rewrite Hkey. exact (Hall key vd kb Hin Hd Hk).
  - intros data i [md m] key vd sb _ Hi Ho.
    pose proof (requested_record_present _ _ _ _ Hi Ho) as Hr. split.
    + now rewrite loop_body_eq, Hr.
    + rewrite patch_eq. cbn [inserted_records]. now rewrite Hr.
Qed.

Lemma snap_turn_absent_sample :
  ~ occurs (ascii_bytes "bSnapTurn" ++ [x00]) sample_save.
Proof. apply find_miss_iff. vm_compute. reflexivity. Qed.

Lemma snap_turn_present_sample :
  occurs (ascii_bytes "bSnapTurn" ++ [x00]) sample_save_with_snap.
Proof. apply find_hit_occurs. vm_compute. discriminate. Qed.

Lemma C10_unknown_setting_name_witness :
  loop_body sample_save 125 (sample_save, false) snap_turn_on = Err KeyError /\
  locate_and_modify_player_settings sample_save_with_snap
    [snap_turn_on; gunstock_on] <> Err KeyError /\
  loop_body sample_save_with_snap 125 (sample_save_with_snap, false) snap_turn_on
    = Ok (sample_save_with_snap, false) /\
  locate_and_modify_player_settings sample_save_with_snap [snap_turn_on]
    = Ok None.
Proof.
  destruct C10_unknown_setting_name as (Habsent & _ & Hcompletes & Hpresent).
  split; [|split].
  - apply (Habsent sample_save 125 (sample_save, false) (lit "bSnapTurn")
             {| vd_type := lit "BoolProperty"; vd_value := PyBool true |}
             snap_turn_sb).
    + reflexivity.
    + reflexivity.
    + exact snap_turn_absent_sample.
  - apply Hcompletes. intros key vd kb [E|[E|[]]] Hd Hk.
    + injection E as <- <-. vm_compute in Hk. injection Hk as <-.
      exact snap_turn_present_sample.
    + injection E as <- <-. vm_compute in Hd. discriminate Hd.
  - apply (Hpresent sample_save_with_snap 125 (sample_save_with_snap, false)
             (lit "bSnapTurn")
             {| vd_type := lit "BoolProperty"; vd_value := PyBool true |}
             snap_turn_sb).
    + reflexivity.
    + reflexivity.
    + exact snap_turn_present_sample.
Defined.

(** * Further properties of the code *)

(** ** The codec, field by field *)

Lemma init_fields (k dt : pystr) (v : pyvalue) (sb : SettingBytes.t) :
  SettingBytes.__init__ k dt v = Ok sb ->
  exists kb tb vb,
    encode k = Ok kb /\ encode dt = Ok tb /\
    SettingBytes._compute_value v = Ok vb /\
    len kb + 1 < 256 /\ len tb + 1 < 256 /\
    SettingBytes.key sb = kb ++ [x00] /\
    SettingBytes.data_type sb = tb ++ [x00] /\
    SettingBytes.value sb = vb /\
    SettingBytes.bytes sb = record_layout kb tb vb.
Proof.
  intros H.
  destruct (init_inv _ _ _ _ H) as (kb & tb & vb & Hk & Ht & Hv & Lk & Lt & Hb).
  exists kb, tb, vb. repeat split; try assumption.
  all: unfold SettingBytes.__init__ in H; rewrite Hk, Ht in H; cbn [bind] in H;
    apply bind_Ok in H as (h & _ & H); apply bind_Ok in H as (m & _ & H);
    rewrite Hv in H; cbn [bind] in H; now injection H as <-.
Qed.

Lemma app_eq_length {A : Type} (a a' b b' : list A) :
  List.length a = List.length a' -> a ++ b = a' ++ b' -> a = a' /\ b = b'.
Proof.
  revert a'; induction a as [|x a IH]; intros [|x' a'] Hl H;
    try discriminate Hl.
  - now split.
  - simpl in H. injection H as -> H. injection Hl as Hl.
    destruct (IH a' Hl H) as [-> ->]. now split.
Qed.

Lemma length_header_inj (a b : pybytes) :
  len a + 1 < 256 -> len b + 1 < 256 ->
  length_header a = length_header b -> List.length a = List.length b.
Proof.
  unfold length_header, len. intros La Lb H. injection H as H.
  apply (f_equal Byte.to_N) in H.
  rewrite !byte_of_N_to_N in H by lia. lia.
Qed.

Lemma record_layout_inj (kb tb vb kb' tb' vb' : pybytes) :
  len kb + 1 < 256 -> len tb + 1 < 256 ->
  len kb' + 1 < 256 -> len tb' + 1 < 256 ->
  record_layout kb tb vb = record_layout kb' tb' vb' ->
  kb = kb' /\ tb = tb' /\ vb = vb'.
Proof.
  intros Lk Lt Lk' Lt' H. unfold record_layout in H.
  destruct (app_eq_length (length_header kb) (length_header kb') _ _ eq_refl H)
    as [Hh H1].
  apply length_header_inj in Hh; try assumption.
  destruct (app_eq_length _ _ _ _ Hh H1) as [-> H2].
  apply app_inv_head in H2.
  destruct (app_eq_length (length_header tb) (length_header tb') _ _ eq_refl H2)
    as [Hh' H3].
  apply length_header_inj in Hh'; try assumption.
  destruct (app_eq_length _ _ _ _ Hh' H3) as [-> H4].
  apply app_inv_head in H4. apply app_inv_head in H4.
  apply app_inj_tail in H4 as [-> _]. now repeat split.
Qed.

(** X1: the encoding is unambiguous: two records with the same bytes have the
    same key, the same type tag and the same value bytes. *)
Theorem X_record_injective (k dt k' dt' : pystr) (v v' : pyvalue)
    (sb sb' : SettingBytes.t) :
  SettingBytes.__init__ k dt v = Ok sb ->
  SettingBytes.__init__ k' dt' v' = Ok sb' ->
  SettingBytes.bytes sb = SettingBytes.bytes sb' ->
  SettingBytes.key sb = SettingBytes.key sb' /\
  SettingBytes.data_type sb = SettingBytes.data_type sb' /\
  SettingBytes.value sb = SettingBytes.value sb'.
Proof.
  intros H H' Hb.
  apply init_fields in H
    as (kb & tb & vb & _ & _ & _ & Lk & Lt & -> & -> & -> & Hl).
  apply init_fields in H'
    as (kb' & tb' & vb' & _ & _ & _ & Lk' & Lt' & -> & -> & -> & Hl').
  rewrite Hl, Hl' in Hb.
  apply record_layout_inj in Hb as (-> & -> & ->); try assumption.
  now repeat split.
Qed.

Lemma X_record_injective_witness :
  SettingBytes.key gunstock_sb = ascii_bytes "bUsingPhysicalGunstock" ++ [x00] /\
  SettingBytes.data_type gunstock_sb = ascii_bytes "BoolProperty" ++ [x00] /\
  SettingBytes.value gunstock_sb = [x01].
Proof.
  apply (X_record_injective (lit "bUsingPhysicalGunstock") (lit "BoolProperty")
           (lit "bUsingPhysicalGunstock") (lit "BoolProperty")
           (PyBool true) (PyInt 1) gunstock_sb
           (SettingBytes.mk
              (ascii_bytes "bUsingPhysicalGunstock" ++ [x00])
              (ascii_bytes "BoolProperty" ++ [x00])
              (zeros 8) (PyInt 1)
              [x17; x00; x00; x00] [x0d; x00; x00; x00] [x01]
              gunstock_record));
    reflexivity.
Defined.

(** X2: the size of a record: its three variable fields and 17 bytes of
    headers, padding and terminator; the key and the type tag, with their
    terminators, take at most 255 bytes each. *)
Theorem X_record_length (k dt : pystr) (v : pyvalue) (sb : SettingBytes.t) :
  SettingBytes.__init__ k dt v = Ok sb ->
  List.length (SettingBytes.bytes sb) =
    (List.length (SettingBytes.key sb) + List.length (SettingBytes.data_type sb)
     + List.length (SettingBytes.value sb) + 17)%nat /\
  (1 <= List.length (SettingBytes.key sb) <= 255)%nat /\
  (1 <= List.length (SettingBytes.data_type sb) <= 255)%nat /\
  ((exists b, v = PyBool b) \/ (exists n, v = PyInt n) ->
   (20 <= List.length (SettingBytes.bytes sb) <= 528)%nat).
Proof.
  intros H.
  apply init_fields in H
    as (kb & tb & vb & _ & _ & Hv & Lk & Lt & -> & -> & -> & ->).
  rewrite record_layout_length, !length_app. unfold len in *. cbn [List.length].
  repeat split; try lia.
  - assert (List.length vb = 1%nat) as Hl; [|lia].
    destruct H as [[b ->]|[n ->]]; cbn [SettingBytes._compute_value] in Hv;
      apply bind_Ok in Hv as (x & _ & Hx); now injection Hx as <-.
  - assert (List.length vb = 1%nat) as Hl; [|lia].
    destruct H as [[b ->]|[n ->]]; cbn [SettingBytes._compute_value] in Hv;
      apply bind_Ok in Hv as (x & _ & Hx); now injection Hx as <-.
Qed.

Lemma X_record_length_witness :
  List.length (SettingBytes.bytes gunstock_sb) =
    (List.length (SettingBytes.key gunstock_sb)
     + List.length (SettingBytes.data_type gunstock_sb)
     + List.length (SettingBytes.value gunstock_sb) + 17)%nat /\
  (1 <= List.length (SettingBytes.key gunstock_sb) <= 255)%nat /\
  (1 <= List.length (SettingBytes.data_type gunstock_sb) <= 255)%nat /\
  ((exists b, PyBool true = PyBool b) \/ (exists n, PyBool true = PyInt n) ->
   (20 <= List.length (SettingBytes.bytes gunstock_sb) <= 528)%nat).
Proof.
  apply (X_record_length (lit "bUsingPhysicalGunstock") (lit "BoolProperty")
           (PyBool true) gunstock_sb).
  reflexivity.
Defined.

(** ** Names are measured in bytes *)

Lemma encode_cp_length (c : N) (b : pybytes) :
  encode_cp c = Ok b -> (1 <= List.length b <= 4)%nat.
Proof.
  unfold encode_cp.
  repeat match goal with
         | |- context [if ?x then _ else _] => destruct x
         end; intros H; try discriminate H; injection H as <-; simpl; lia.
Qed.

Lemma encode_length (s : pystr) (b : pybytes) :
  encode s = Ok b ->
  (List.length s <= List.length b <= 4 * List.length s)%nat.
Proof.
  revert b; induction s as [|c s IH]; cbn [encode]; intros b H.
  - injection H as <-. simpl. lia.
  - apply bind_Ok in H as (x & Hx & H). apply bind_Ok in H as (bs & Hbs & H).
    injection H as <-. apply encode_cp_length in Hx. specialize (IH _ Hbs).
    rewrite length_app. cbn [List.length]. lia.
Qed.

(** X3: the header counts encoded bytes, so a record is only ever built for a
    key and a type tag of fewer than 255 characters each; and any key and
    type tag of at most 63 characters that can be encoded are short enough,
    whatever their characters. *)
Theorem X_name_length_bounds :
  (forall k dt v sb,
      SettingBytes.__init__ k dt v = Ok sb ->
      (List.length k < 255)%nat /\ (List.length dt < 255)%nat) /\
  (forall k dt v kb tb vb,
      encode k = Ok kb -> encode dt = Ok tb ->
      SettingBytes._compute_value v = Ok vb ->
      (List.length k <= 63)%nat -> (List.length dt <= 63)%nat ->
      exists sb, SettingBytes.__init__ k dt v = Ok sb).
Proof.
  split.
  - intros k dt v sb H.
    apply init_inv in H as (kb & tb & vb & Hk & Ht & _ & Lk & Lt & _).
    apply encode_length in Hk, Ht. unfold len in *. lia.
  - intros k dt v kb tb vb Hk Ht Hv Lk Lt.
    destruct (init_ok k dt v kb tb vb) as (sb & H & _); try assumption.
    + apply encode_length in Hk. unfold len. lia.
    + apply encode_length in Ht. unfold len. lia.
    + now exists sb.
Qed.

Lemma X_name_length_bounds_witness :
  ((List.length (lit "bFullBodyIK") < 255)%nat /\
   (List.length (lit "BoolProperty") < 255)%nat) /\
  exists sb,
    SettingBytes.__init__ [0x20AC%N; 0x1F600%N] (lit "StrProperty")
                          (PyStr [0xE9%N]) = Ok sb.
Proof.
  destruct X_name_length_bounds as [Hbuilt Hshort]. split.
  - apply (Hbuilt (lit "bFullBodyIK") (lit "BoolProperty") (PyBool false)
             body_ik_sb).
    reflexivity.
  - apply (Hshort [0x20AC%N; 0x1F600%N] (lit "StrProperty") (PyStr [0xE9%N])
             [xe2; x82; xac; xf0; x9f; x98; x80] (ascii_bytes "StrProperty")
             [xc3; xa9]);
      try reflexivity; simpl; lia.
Defined.

(** X4: an integer value is encoded exactly when it lies in [range(256)]; a
    negative one raises [ValueError] like one that is too large. *)
Theorem X_integer_value_range (n : Z) :
  ((exists vb, SettingBytes._compute_value (PyInt n) = Ok vb) <->
   0 <= n < 256) /\
  (n < 0 -> forall k dt kb tb,
      encode k = Ok kb -> encode dt = Ok tb ->
      SettingBytes.__init__ k dt (PyInt n) = Err ValueError).
Proof.
  split; [split|].
  - intros [vb H]. cbn [SettingBytes._compute_value] in H.
    apply bind_Ok in H as (b & Hb & _). now apply bytes_of_int_inv in Hb.
  - intros H. cbn [SettingBytes._compute_value].
    rewrite bytes_of_int_ok by assumption. now eexists.
  - intros Hn k dt kb tb Hk Ht.
    destruct (Z_lt_dec (len kb + 1) 256) as [Lk|Lk];
      [|apply (init_name_too_long k dt _ kb tb); (assumption || lia)].
    destruct (Z_lt_dec (len tb + 1) 256) as [Lt|Lt];
      [|apply (init_name_too_long k dt _ kb tb); (assumption || lia)].
    apply (init_value_fault_exact k dt _ kb tb); try assumption.
    cbn [SettingBytes._compute_value]. now rewrite bytes_of_int_err by lia.
Qed.

Lemma X_integer_value_range_witness :
  (exists vb, SettingBytes._compute_value (PyInt 255) = Ok vb) /\
  SettingBytes.__init__ (lit "bFullBodyIK") (lit "IntProperty") (PyInt (-1))
    = Err ValueError.
Proof.
  split.
  - apply (proj1 (X_integer_value_range 255)). lia.
  - apply (proj2 (X_integer_value_range (-1)) ltac:(lia) _ _
             (ascii_bytes "bFullBodyIK") (ascii_bytes "IntProperty"));
      reflexivity.
Defined.

(** ** The patcher only inserts *)

Lemma firstn_len_app {A : Type} (k : nat) (a b : list A) :
  List.length a = k -> firstn k (a ++ b) = a.
Proof. intros <-. apply firstn_exact. Qed.

Lemma skipn_len_app {A : Type} (k : nat) (a b : list A) :
  List.length a = k -> skipn k (a ++ b) = b.
Proof. intros <-. apply skipn_exact. Qed.

Lemma splice_frame (k : nat) (data M r : pybytes) :
  exists M',
    splice k (firstn k data ++ M ++ skipn k data) r =
      firstn k data ++ M' ++ skipn k data /\
    List.length M' = (List.length M + List.length r)%nat.
Proof.
  unfold splice.
  destruct (Nat.le_gt_cases k (List.length data)) as [Hk|Hk].
  - assert (List.length (firstn k data) = k) as Hl
      by (rewrite length_firstn; lia).
    exists (r ++ M). split; [|rewrite length_app; lia].
    rewrite (firstn_len_app k _ _ Hl), (skipn_len_app k _ _ Hl).
    now rewrite <- app_assoc.
  - rewrite (firstn_all2 (n:=k) data), (skipn_all2 (n:=k) data) by lia.
    rewrite app_nil_r.
    exists (firstn (k - List.length data) M ++ r
              ++ skipn (k - List.length data) M).
    split.
    + rewrite firstn_app, skipn_app, (firstn_all2 (n:=k) data),
        (skipn_all2 (n:=k) data) by lia.
      cbn [app]. now rewrite app_nil_r, <- !app_assoc.
    + rewrite !length_app.
      rewrite <- (firstn_skipn (k - List.length data) M) at 3.
      rewrite length_app. lia.
Qed.

Lemma fold_splice_frame (k : nat) (data : pybytes) (rs : list pybytes)
    (M : pybytes) :
  exists M',
    fold_left (splice k) rs (firstn k data ++ M ++ skipn k data) =
      firstn k data ++ M' ++ skipn k data /\
    List.length M' = (List.length M + total_length rs)%nat.
Proof.
  revert M; induction rs as [|r rs IH]; intros M.
  - exists M. split; [reflexivity | unfold total_length; simpl; lia].
  - cbn [fold_left].
    destruct (splice_frame k data M r) as (M1 & -> & Hl1).
    destruct (IH M1) as (M' & -> & Hl').
    exists M'. split; [reflexivity|]. rewrite total_length_cons. lia.
Qed.

Lemma patch_Ok (data : pybytes) (s : settings) (o : option pybytes) :
  locate_and_modify_player_settings data s = Ok o ->
  exists rs,
    inserted_records data s = Ok rs /\
    o = if any_record rs
        then Some (fold_left (splice (Z.to_nat (insertion_index data))) rs data)
        else None.
Proof.
  rewrite patch_eq. intros H.
  destruct (inserted_records data s) as [rs|e]; cbn [bind] in H; [|discriminate].
  exists rs. split; [reflexivity|]. injection H as <-.
  now rewrite fold_slice_insert by apply insertion_index_nonneg.
Qed.

Lemma all_records_nonempty (data : pybytes) (s : settings)
    (rs : list pybytes) :
  inserted_records data s = Ok rs ->
  any_record rs = true -> (0 < total_length rs)%nat.
Proof.
  intros H Ha. destruct rs as [|r rs]; [discriminate|].
  destruct (inserted_records_In data s (r :: rs) r H) as (item & _ & Hreq);
    [now left|].
  apply requested_record_nonempty in Hreq. rewrite total_length_cons. lia.
Qed.

(** X5: a buffer the patcher returns keeps every byte of the input, in order:
    it is the input cut at the insertion index, with a non-empty block
    between the two parts whose length is the growth of the buffer.  The
    insertion index is never below 24, so nothing is ever put before
    offset 24 of a buffer that long. *)
Theorem X_patch_only_inserts (data : pybytes) (s : settings) (out : pybytes) :
  locate_and_modify_player_settings data s = Ok (Some out) ->
  let k := Z.to_nat (insertion_index data) in
  (24 <= k)%nat /\
  exists M,
    out = firstn k data ++ M ++ skipn k data /\
    (0 < List.length M)%nat /\
    List.length out = (List.length data + List.length M)%nat.
Proof.
  intros H k. split.
  - subst k. unfold insertion_index, find. rewrite len_data_anchor.
    destruct (find_from_range data data_anchor 0); lia.
  - apply patch_Ok in H as (rs & Hrs & Ho).
    destruct (any_record rs) eqn:Ha; [|discriminate].
    injection Ho as ->. fold k.
    destruct (fold_splice_frame k data rs []) as (M & HM & Hl).
    cbn [app] in HM. rewrite firstn_skipn in HM.
    exists M. split; [exact HM|].
    pose proof (all_records_nonempty _ _ _ Hrs Ha). simpl in Hl.
    split; [lia|]. rewrite fold_splice_length. lia.
Qed.

Lemma X_patch_only_inserts_witness :
  let k := Z.to_nat (insertion_index sample_save) in
  (24 <= k)%nat /\
  exists M,
    repeat xff 100 ++ data_anchor ++ gunstock_record ++ repeat xee 7
      = firstn k sample_save ++ M ++ skipn k sample_save /\
    (0 < List.length M)%nat /\
    List.length (repeat xff 100 ++ data_anchor ++ gunstock_record
                   ++ repeat xee 7)
      = (List.length sample_save + List.length M)%nat.
Proof.
  apply (X_patch_only_inserts sample_save [gunstock_on]).
  vm_compute. reflexivity.
Defined.

(** ** The order of the request *)

Lemma inserted_records_cons (data : pybytes) (item : pystr * value_data)
    (s : settings) (rs : list pybytes) :
  inserted_records data (item :: s) = Ok rs ->
  exists o rs', requested_record data item = Ok o /\
                inserted_records data s = Ok rs' /\ rs = cons_opt o rs'.
Proof.
  cbn [inserted_records]. intros H.
  apply bind_Ok in H as (o & Ho & H). apply bind_Ok in H as (rs' & Hrs & H).
  injection H as <-. now exists o, rs'.
Qed.








(** ** Running the patcher on its own output *)

Lemma app_eq_app_split {A : Type} (a b c d : list A) :
  a ++ b = c ++ d ->
  (exists l, c = a ++ l /\ b = l ++ d) \/ (exists l, a = c ++ l /\ d = l ++ b).
Proof.
  revert c; induction a as [|x a IH]; intros c H.
  - left. now exists c.
  - destruct c as [|y c].
    + right. now exists (x :: a).
    + simpl in H. injection H as -> H.
      destruct (IH c H) as [(l & -> & ->)|(l & -> & ->)];
        [left | right]; now exists l.
Qed.

Lemma occurs_refl (a : pybytes) : occurs a a.
Proof. exists [], []. now rewrite app_nil_r. Qed.

Lemma occurs_app_l (sub a b : pybytes) : occurs sub a -> occurs sub (a ++ b).
Proof.
  intros (pre & post & ->). exists pre, (post ++ b). now rewrite <- !app_assoc.
Qed.

Lemma occurs_app_r (sub a b : pybytes) : occurs sub b -> occurs sub (a ++ b).
Proof.
  intros (pre & post & ->). exists (a ++ pre), post. now rewrite <- !app_assoc.
Qed.

Lemma occurs_trans (a b c : pybytes) : occurs a b -> occurs b c -> occurs a c.
Proof.
  intros Hab (pre & post & ->). now apply occurs_app_r, occurs_app_l.
Qed.

Lemma occurs_in_concat (r : pybytes) (l : list pybytes) :
  In r l -> occurs r (List.concat l).
Proof.
  induction l as [|x l IH]; [contradiction|]. intros [->|H]; simpl.
  - apply occurs_app_l, occurs_refl.
  - now apply occurs_app_r, IH.
Qed.

(** A record holds the null-terminated key it was built for. *)
Lemma key_in_record (k dt : pystr) (v : pyvalue) (sb : SettingBytes.t) :
  SettingBytes.__init__ k dt v = Ok sb ->
  occurs (SettingBytes.key sb) (SettingBytes.bytes sb).
Proof.
  intros H.
  apply init_fields in H as (kb & tb & vb & _ & _ & _ & _ & _ & -> & _ & _ & ->).
  unfold record_layout. exists (length_header kb). eexists.
  now rewrite <- !app_assoc.
Qed.

(** A null-terminated name without an inner null byte cannot straddle a
    cut that follows a null byte. *)
Lemma occurs_cut (kb P Q : pybytes) :
  ~ In x00 kb ->
  occurs (kb ++ [x00]) ((P ++ [x00]) ++ Q) ->
  occurs (kb ++ [x00]) (P ++ [x00]) \/ occurs (kb ++ [x00]) Q.
Proof.
  intros Hk (pre & post & H). symmetry in H.
  apply app_eq_app_split in H as [(l & HP & Hl)|(l & -> & ->)].
  - apply app_eq_app_split in Hl as [(l2 & -> & ->)|(l2 & Hsub & ->)].
    + left. exists pre, l2. now rewrite HP.
    + destruct l as [|x l].
      * right. exists [], post. simpl in Hsub. now rewrite Hsub.
      * destruct l2 as [|y l2].
        -- left. exists pre, []. rewrite app_nil_r in *. now rewrite Hsub.
        -- exfalso.
           destruct (exists_last (l:=x :: l)) as (l' & z & El); [discriminate|].
           rewrite El in *. clear El.
           rewrite app_assoc in HP. apply app_inj_tail in HP as [_ <-].
           destruct (exists_last (l:=y :: l2)) as (l2' & w & El2);
             [discriminate|].
           rewrite El2 in Hsub. rewrite app_assoc in Hsub.
           apply app_inj_tail in Hsub as [Hkb _]. apply Hk. rewrite Hkb.
           apply in_or_app. left. apply in_or_app. right. now left.
  - right. exists l, post. reflexivity.
Qed.

Lemma data_anchor_terminated :
  data_anchor = ascii_bytes "BP_Ghosts_SettingsSave_C" ++ [x00].
Proof. reflexivity. Qed.

(** An insertion right after the anchor keeps every occurrence of such a
    name. *)
Lemma occurs_kept (kb pre M post : pybytes) :
  ~ In x00 kb ->
  occurs (kb ++ [x00]) (pre ++ data_anchor ++ post) ->
  occurs (kb ++ [x00]) ((pre ++ data_anchor) ++ M ++ post).
Proof.
  intros Hk H. rewrite data_anchor_terminated in *.
  rewrite !app_assoc in H. rewrite (app_assoc pre).
  apply (occurs_cut _ _ _ Hk) in H as [H|H].
  - now apply occurs_app_l.
  - now apply occurs_app_r, occurs_app_r.
Qed.

Lemma inserted_records_item (data : pybytes) (s : settings)
    (rs : list pybytes) (item : pystr * value_data) :
  inserted_records data s = Ok rs -> In item s ->
  exists o, requested_record data item = Ok o /\
            forall r, o = Some r -> In r rs.
Proof.
  revert rs; induction s as [|x s IH]; intros rs H Hin; [contradiction|].
  apply inserted_records_cons in H as (o & rs' & Ho & Hs & ->).
  destruct Hin as [->|Hin].
  - exists o. split; [assumption|]. intros r ->. now left.
  - destruct (IH _ Hs Hin) as (o' & Ho' & Hr). exists o'.
    split; [assumption|]. intros r E. specialize (Hr r E).
    destruct o; simpl; [now right | assumption].
Qed.

Lemma requested_record_Ok_init (data : pybytes) (key : pystr)
    (vd : value_data) (o : option pybytes) :
  requested_record data (key, vd) = Ok o ->
  exists sb, SettingBytes.__init__ key (vd_type vd) (vd_value vd) = Ok sb.
Proof.
  intros H.
  destruct (SettingBytes.__init__ key (vd_type vd) (vd_value vd)) as [sb|e] eqn:E;
    [now exists sb|].
  rewrite (requested_record_init_fault _ _ _ _ E) in H. discriminate.
Qed.

(** X7: the patcher is idempotent on a buffer that holds the anchor: run again
    with the same request on the buffer it returned, it finds every setting
    it inserted and every setting that was there before, and returns [None].
    The requested keys must not hold a null byte, as a name whose bytes
    reach across the insertion point would be torn apart. *)
Theorem X_patch_idempotent (data : pybytes) (s : settings) (out : pybytes) :
  occurs data_anchor data ->
  (forall key vd kb, In (key, vd) s -> encode key = Ok kb -> ~ In x00 kb) ->
  locate_and_modify_player_settings data s = Ok (Some out) ->
  locate_and_modify_player_settings out s = Ok None.
Proof.
  intros Ha Hnul H.
  destruct (patch_Ok _ _ _ H) as (rs & Hrs & _).
  destruct (patch_anchored _ _ _ Ha Hrs) as (pre & post & Hd & _ & _ & Hp).
  rewrite H in Hp. destruct (any_record rs); [|discriminate].
  injection Hp as ->.
  rewrite patch_eq, inserted_records_none; [reflexivity|].
  apply Forall_forall. intros [key vd] Hin.
  destruct (inserted_records_item _ _ _ _ Hrs Hin) as (o & Ho & Hins).
  destruct (requested_record_Ok_init _ _ _ _ Ho) as (sb & Hsb).
  destruct (init_key _ _ _ _ Hsb) as (kb & Hkb & Hkey).
  set (out := (pre ++ data_anchor) ++ List.concat (rev rs) ++ post).
  rewrite (requested_record_unfold out _ _ _ Hsb).
  destruct (find out (SettingBytes.key sb) =? -1) eqn:F; [|reflexivity].
  apply Z.eqb_eq, find_miss_iff in F.
  assert (~ occurs (SettingBytes.key sb) data) as Habs.
  { intros Hocc. apply F. rewrite Hkey in *. subst data out.
    apply occurs_kept; [|assumption]. exact (Hnul key vd kb Hin Hkb). }
  rewrite (requested_record_absent _ _ _ _ Hsb Habs) in Ho.
  destruct (getitem DEFAULT_SETTINGS key) as [d|e]; cbn [bind] in Ho |- *;
    [|discriminate].
  destruct (py_ne (vd_value vd) d); [|reflexivity].
  exfalso. apply F. injection Ho as <-.
  apply (occurs_trans _ (SettingBytes.bytes sb));
    [now apply (key_in_record key (vd_type vd) (vd_value vd))|].
  unfold out. apply occurs_app_r, occurs_app_l, occurs_in_concat.
  apply in_rev. rewrite rev_involutive. now apply Hins.
Qed.

Lemma X_patch_idempotent_witness :
  locate_and_modify_player_settings
    (repeat xff 100 ++ data_anchor ++ body_ik_record ++ gunstock_record
       ++ repeat xee 7)
    [gunstock_on; body_ik_off] = Ok None.
Proof.
  apply (X_patch_idempotent sample_save [gunstock_on; body_ik_off]).
  - exact sample_save_anchor.
  - intros key vd kb [E|[E|[]]] Hk; injection E as <- <-;
      vm_compute in Hk; injection Hk as <-; simpl; intuition discriminate.
  - vm_compute. reflexivity.
Defined.

(** ** The anchor stays where it is *)

Lemma find_first (data sub pre post : pybytes) :
  data = pre ++ sub ++ post ->
  (forall pre' post', data = pre' ++ sub ++ post' -> len pre <= len pre') ->
  find data sub = len pre.
Proof.
  intros Hd Hmin.
  assert (find data sub <> -1) as Hf.
  { assert (occurs sub data) as Ho by (now exists pre, post).
    apply find_occurs in Ho. lia. }
  destruct (find_hit _ _ Hf) as (pre0 & post0 & Hd0 & -> & Hmin0).
  specialize (Hmin _ _ Hd0). specialize (Hmin0 _ _ Hd). lia.
Qed.

(** X8: a patch does not move the anchor: its first occurrence in the returned
    buffer is at the offset it had in the input, so a later call inserts at
    the same index. *)
Theorem X_anchor_stays (data : pybytes) (s : settings) (out : pybytes) :
  occurs data_anchor data ->
  locate_and_modify_player_settings data s = Ok (Some out) ->
  find out data_anchor = find data data_anchor /\
  insertion_index out = insertion_index data.
Proof.
  intros Ha H.
  destruct (patch_Ok _ _ _ H) as (rs & Hrs & _).
  destruct (patch_anchored _ _ _ Ha Hrs) as (pre & post & Hd & Hmin & _ & Hp).
  rewrite H in Hp. destruct (any_record rs); [|discriminate].
  injection Hp as ->.
  assert (find ((pre ++ data_anchor) ++ List.concat (rev rs) ++ post)
               data_anchor = find data data_anchor) as E.
  { rewrite (find_first data data_anchor pre post Hd Hmin).
    apply (find_first _ _ pre (List.concat (rev rs) ++ post)).
    - now rewrite <- !app_assoc.
    - intros pre' post' E.
      assert ((pre' ++ data_anchor) ++ post' =
              (pre ++ data_anchor) ++ List.concat (rev rs) ++ post) as E'
        by (rewrite <- (app_assoc pre'); symmetry; exact E).
      apply app_eq_app_split in E' as [(l & Hl & _)|(l & Hl & _)].
      + apply (Hmin pre' (l ++ post)).
        rewrite Hd, app_assoc, Hl. now rewrite <- !app_assoc.
      + apply (f_equal (@List.length byte)) in Hl.
        rewrite !length_app in Hl. unfold len. lia. }
  split; [exact E|]. unfold insertion_index. now rewrite E.
Qed.

Lemma X_anchor_stays_witness :
  find (repeat xff 100 ++ data_anchor ++ gunstock_record ++ repeat xee 7)
       data_anchor = find sample_save data_anchor /\
  insertion_index
    (repeat xff 100 ++ data_anchor ++ gunstock_record ++ repeat xee 7)
    = insertion_index sample_save.
Proof.
  apply (X_anchor_stays sample_save [gunstock_on]).
  - exact sample_save_anchor.
  - vm_compute. reflexivity.
Defined.

(** ** File discovery *)

Lemma py_max_spec {A : Type} (key : A -> Q) (rest : list A) (best : A) :
  exists older later,
    best :: rest = older ++ py_max key best rest :: later /\
    (forall g, In g older -> (key g < key (py_max key best rest))%Q) /\
    (forall g, In g later -> (key g <= key (py_max key best rest))%Q).
Proof.
  revert best; induction rest as [|x rest IH]; intros best.
  - exists [], []. repeat split; intros g [].
  - cbn [py_max]. destruct (Qle_bool (key x) (key best)) eqn:E.
    + apply Qle_bool_iff in E.
      destruct (IH best) as (older & later & Hd & Hlt & Hle).
      destruct older as [|b older].
      * injection Hd as Hb Hr. exists [], (x :: later). repeat split.
        -- simpl. rewrite <- Hr. f_equal. exact Hb.
        -- intros g [].
        -- intros g [<-|Hg]; [now rewrite <- Hb | now apply Hle].
      * injection Hd as <- Hr. exists (best :: x :: older), later.
        repeat split.
        -- simpl. do 2 f_equal. exact Hr.
        -- intros g [<-|[<-|Hg]].
           ++ apply Hlt. now left.
           ++ apply (Qle_lt_trans _ (key best)); [assumption|].
              apply Hlt. now left.
           ++ apply Hlt. now right.
        -- assumption.
    + assert (key best < key x)%Q as Hbx.
      { apply Qnot_le_lt. intros C. apply Qle_bool_iff in C. congruence. }
      destruct (IH x) as (older & later & Hd & Hlt & Hle).
      exists (best :: older), later. repeat split.
      * simpl. now rewrite Hd.
      * intros g [<-|Hg]; [|now apply Hlt].
        destruct older as [|b older].
        -- injection Hd as Hx _. now rewrite <- Hx.
        -- injection Hd as <- _. apply (Qlt_trans _ (key x)); [assumption|].
           apply Hlt. now left.
      * assumption.
Qed.

(** X9: [find_newest_settings_file] returns [None] exactly when no file matches
    the pattern; otherwise it returns a matching file that is at least as
    new as every other one, and among equally new files the one the
    listing gives first. *)
Theorem X_newest_settings_file
    (os_path_join : pystr -> pystr -> pystr) (glob_glob : pystr -> list pystr)
    (getmtime : pystr -> Q) (path : pystr) :
  let files := glob_glob (os_path_join path (lit "PlayerSettings*.sav")) in
  (find_newest_settings_file os_path_join glob_glob getmtime path = None
   <-> files = []) /\
  (forall f,
      find_newest_settings_file os_path_join glob_glob getmtime path = Some f ->
      exists older later,
        files = older ++ f :: later /\
        (forall g, In g older -> (getmtime g < getmtime f)%Q) /\
        (forall g, In g later -> (getmtime g <= getmtime f)%Q)).
Proof.
  intros files. unfold find_newest_settings_file. fold files.
  destruct files as [|f0 rest].
  - split; [now split | discriminate].
  - split; [split; discriminate|].
    intros f H. injection H as <-. apply py_max_spec.
Qed.

Lemma X_newest_settings_file_witness :
  exists older later,
    [lit "PlayerSettings1.sav"; lit "PlayerSettings22.sav";
     lit "PlayerSettings333.sav"] = older ++ lit "PlayerSettings22.sav" :: later /\
    (forall g, In g older ->
               (inject_Z (Z.of_nat (S (List.length g)) mod 2)
                < inject_Z (Z.of_nat (S (List.length (lit "PlayerSettings22.sav"))) mod 2))%Q) /\
    (forall g, In g later ->
               (inject_Z (Z.of_nat (S (List.length g)) mod 2)
                <= inject_Z (Z.of_nat (S (List.length (lit "PlayerSettings22.sav"))) mod 2))%Q).
Proof.
  apply (proj2 (X_newest_settings_file
                  (fun d p => d ++ p)
                  (fun _ => [lit "PlayerSettings1.sav"; lit "PlayerSettings22.sav";
                             lit "PlayerSettings333.sav"])
                  (fun g => inject_Z (Z.of_nat (S (List.length g)) mod 2))
                  (lit "SaveGames\"))).
  vm_compute. reflexivity.
Defined.

(** ** The entry point *)

(** X10: with the environment variable set and a save file found, [main] either
    does nothing at all (the patcher returned [None]), or copies the save
    file to its backup and only then overwrites it with exactly the buffer
    the patcher returned, or ends with the patcher's exception without
    having touched any file.  A buffer the patcher returns is never empty,
    so the truth test on it never drops one. *)
Theorem X_main_effects
    (environ_get : pystr -> option pystr) (Path : pystr -> pystr)
    (path_join os_path_join : pystr -> pystr -> pystr)
    (glob_glob : pystr -> list pystr) (getmtime : pystr -> Q)
    (read_file : pystr -> pybytes) (json_load : settings) (strftime : pystr)
    (la f : pystr) :
  environ_get (lit "LOCALAPPDATA") = Some la ->
  let file_dir := Path (la ++ lit "\GhostsOfTabor\Saved\SaveGames\") in
  find_newest_settings_file os_path_join glob_glob getmtime file_dir = Some f ->
  let file_path := path_join file_dir f in
  main environ_get Path path_join os_path_join glob_glob getmtime read_file
       json_load strftime =
  match locate_and_modify_player_settings (read_file file_path) json_load with
  | Ok None => Ok []
  | Ok (Some out) =>
      Ok [Copy file_path
               (path_join file_dir (f ++ lit "_" ++ strftime ++ lit ".bak"));
          WriteFile file_path out;
          Print (lit "Modified file saved to " ++ file_path)]
  | Err e => Err e
  end.
Proof.
  intros Hla file_dir Hf file_path. unfold main. rewrite Hla.
  cbn [add_str bind]. fold file_dir. rewrite Hf. cbn [truediv bind].
  fold file_path.
  destruct (locate_and_modify_player_settings (read_file file_path) json_load)
    as [[out|]|e] eqn:E; cbn [bind]; try reflexivity.
  apply patch_Some in E as [_ Hl].
  destruct out as [|b out]; [simpl in Hl; lia|]. reflexivity.
Qed.

(** X11: without the environment variable, or without any matching save file,
    [main] ends in [TypeError] before it reads or writes a file. *)
Theorem X_main_nothing_to_patch
    (environ_get : pystr -> option pystr) (Path : pystr -> pystr)
    (path_join os_path_join : pystr -> pystr -> pystr)
    (glob_glob : pystr -> list pystr) (getmtime : pystr -> Q)
    (read_file : pystr -> pybytes) (json_load : settings) (strftime : pystr) :
  environ_get (lit "LOCALAPPDATA") = None \/
  (forall pattern, glob_glob pattern = []) ->
  main environ_get Path path_join os_path_join glob_glob getmtime read_file
       json_load strftime = Err TypeError.
Proof.
  intros [Hla|Hglob]; unfold main.
  - now rewrite Hla.
  - destruct (environ_get (lit "LOCALAPPDATA")) as [la|]; [|reflexivity].
    cbn [add_str bind]. unfold find_newest_settings_file. now rewrite Hglob.
Qed.

Lemma X_main_effects_witness :
  main (fun _ => Some (lit "C:\Local")) (fun p => p) (fun _ f => f)
       (fun d p => d ++ p) (fun _ => [lit "C:\Local\PlayerSettings7.sav"])
       (fun _ => 0%Q) (fun _ => sample_save) [gunstock_on] (lit "20241217") =
  Ok [Copy (lit "C:\Local\PlayerSettings7.sav")
           (lit "C:\Local\PlayerSettings7.sav_20241217.bak");
      WriteFile (lit "C:\Local\PlayerSettings7.sav")
                (repeat xff 100 ++ data_anchor ++ gunstock_record
                   ++ repeat xee 7);
      Print (lit "Modified file saved to C:\Local\PlayerSettings7.sav")].
Proof.
  exact (X_main_effects
           (fun _ => Some (lit "C:\Local")) (fun p => p) (fun _ f => f)
           (fun d p => d ++ p) (fun _ => [lit "C:\Local\PlayerSettings7.sav"])
           (fun _ => 0%Q) (fun _ => sample_save) [gunstock_on] (lit "20241217")
           (lit "C:\Local") (lit "C:\Local\PlayerSettings7.sav")
           eq_refl eq_refl).
Defined.

Lemma X_main_nothing_to_patch_witness :
  main (fun _ => Some (lit "C:\Local")) (fun p => p) (fun _ f => f)
       (fun d p => d ++ p) (fun _ => [])
       (fun _ => 0%Q) (fun _ => sample_save) [gunstock_on] (lit "20241217") =
  Err TypeError.
Proof.
  apply X_main_nothing_to_patch. right. intros pattern. reflexivity.
Defined.
